(** * Cart and checkout resolvers of [chapter-8/pages/api/index.ts]

    A shallow embedding of the two GraphQL servers kept in that file: the
    resolver-map server (module [Resolvers]) and the schema-builder server
    (module [Builder]), together with the part of the Prisma client they
    call (module [Prisma]) and the JavaScript operators they rely on
    (module [JS]).

    Stored integers are modelled as unbounded integers ([Z]); the width of
    the database columns is fixed by the Prisma schema, which is not part of
    the source file.  The money arithmetic of the resolvers is that of
    JavaScript doubles ([JS.add], [JS.mul]).  The database is a pair of tables: the set of cart ids and
    the list of cart-item rows, in the order in which the store returns
    them. *)

From stdpp Require Import base decidable option numbers strings list gmap.

Local Open Scope Z_scope.

(** ** JavaScript operators used by the resolvers *)

Module JS.

(** [a || b] where [a] is a number: [0] is the only falsy number the
    resolvers can meet. *)
Definition or_num (a b : Z) : Z := if decide (a = 0) then b else a.

(** [a || b] where [a] is [number | null | undefined]. *)
Definition or_opt_num (a : option Z) (b : Z) : Z :=
  match a with
  | Some x => or_num x b
  | None => b
  end.

(** [a ?? b]: only [null] and [undefined] are replaced. *)
Definition nullish {A : Type} (a : option A) (b : A) : A :=
  match a with
  | Some x => x
  | None => b
  end.

(** Truthiness of [string | null | undefined]: the empty string is falsy. *)
Definition truthy (s : option string) : bool :=
  match s with
  | Some x => negb (bool_decide (x = EmptyString))
  | None => false
  end.

(** [s || undefined] *)
Definition or_undefined (s : option string) : option string :=
  if truthy s then s else None.

(** A JavaScript number is a double.  The resolvers only meet integers, so
    a number is modelled by the integer it holds, and an arithmetic result
    by the integer the double nearest to it holds: itself below [2^53],
    beyond that the nearest multiple of the spacing of doubles, ties going
    to the even mantissa.  (Doubles overflow near [2^1024]; no list of rows
    brings a total there.) *)
Definition round53 (x : Z) : Z :=
  let a := Z.abs x in
  if a <? 2 ^ 53 then x
  else
    let e := Z.log2 a - 52 in
    let q := Z.shiftr a e in
    let r := a - Z.shiftl q e in
    let half := 2 ^ (e - 1) in
    let q' := if r <? half then q
              else if half <? r then q + 1
              else if Z.even q then q else q + 1 in
    Z.sgn x * Z.shiftl q' e.

(** [a + b] and [a * b] on numbers. *)
Definition add (a b : Z) : Z := round53 (a + b).
Definition mul (a b : Z) : Z := round53 (a * b).

(** [Array.prototype.reduce] with an initial value. *)
Definition reduce {A B : Type} (f : B -> A -> B) (init : B) (l : list A) : B :=
  fold_left f l init.

End JS.

(** ** Persisted rows *)

Module CartItem.
Record t : Type := mk
  { id : string;
    cartId : string;
    name : string;
    description : option string;
    image : option string;
    price : Z;
    quantity : Z }.

Definition with_quantity (q : Z) (r : t) : t :=
  {| id := id r; cartId := cartId r; name := name r;
     description := description r; image := image r;
     price := price r; quantity := q |}.

#[global] Instance eq_dec : EqDecision t.
Proof. solve_decision. Defined.
End CartItem.

(** A cart as the client returns it, with its item relation loaded. *)
Module Cart.
Record t : Type := mk
  { id : string;
    items : list CartItem.t }.
End Cart.

(** The database: the [Cart] table (one column, the primary key) and the
    [CartItem] table, whose rows are unique under the compound key
    [(id, cartId)].  A created row is put last. *)
Record Store : Type := mkStore
  { cartTable : gset string;
    cartItemTable : list CartItem.t }.

Inductive Error : Type :=
| RecordNotFound                 (* Prisma P2025 *)
| UniqueConstraint               (* Prisma P2002 *)
| GraphQLYogaError (msg : string)
| GraphQLError (msg : string)    (* raised by the executor, here by the Int scalar *)
| GatewayError (msg : string).

Inductive Result (A : Type) : Type :=
| Ok (a : A)
| Err (e : Error).
Arguments Ok {A} a.
Arguments Err {A} e.

(** ** The Prisma client calls made by the resolvers *)

Module Prisma.

(** The rows related to cart [c]. *)
Definition itemsOf (c : string) (rows : list CartItem.t) : list CartItem.t :=
  filter (fun r => CartItem.cartId r = c) rows.

(** [where: { id_cartId: { id: i, cartId: c } }] on one row. *)
Definition hasKey (i c : string) (r : CartItem.t) : bool :=
  bool_decide (CartItem.id r = i) && bool_decide (CartItem.cartId r = c).

(** The row selected by the compound unique key [id_cartId]. *)
Definition findItem (i c : string) (rows : list CartItem.t) : option CartItem.t :=
  List.find (hasKey i c) rows.

Definition loadCart (s : Store) (c : string) : Cart.t :=
  {| Cart.id := c; Cart.items := itemsOf c (cartItemTable s) |}.

(** [prisma.cart.findUnique({ where: { id }, include: { items: true } })] *)
Definition cart_findUnique (c : string) (s : Store) : option Cart.t :=
  if decide (c ∈ cartTable s) then Some (loadCart s c) else None.

(** The payload of a nested [create] on the item relation: a row without
    its foreign key, which the parent cart supplies. *)
Record ItemCreate : Type := mkItemCreate
  { ic_id : string;
    ic_name : string;
    ic_description : option string;
    ic_image : option string;
    ic_price : Z;
    ic_quantity : Z }.

Definition rowOf (parent : string) (d : ItemCreate) : CartItem.t :=
  {| CartItem.id := ic_id d; CartItem.cartId := parent;
     CartItem.name := ic_name d; CartItem.description := ic_description d;
     CartItem.image := ic_image d; CartItem.price := ic_price d;
     CartItem.quantity := ic_quantity d |}.

(** A nested write on the [items] relation of a parent cart. *)
Definition Nested : Type := string -> list CartItem.t -> Result (list CartItem.t).

(** [update: {}] and [create: { id }]: no nested write. *)
Definition noItems : Nested := fun _ rows => Ok rows.

(** [items: { create: d }] *)
Definition items_create (d : ItemCreate) : Nested :=
  fun parent rows =>
    match findItem (ic_id d) parent rows with
    | Some _ => Err UniqueConstraint
    | None => Ok (rows ++ [rowOf parent d])
    end.

(** [quantity: { increment: n }] *)
Definition increment (n : Z) (r : CartItem.t) : CartItem.t :=
  CartItem.with_quantity (CartItem.quantity r + n) r.

(** [quantity: { decrement: n }] *)
Definition decrement (n : Z) (r : CartItem.t) : CartItem.t :=
  CartItem.with_quantity (CartItem.quantity r - n) r.

(** Rewrites the row with key [(i, c)], which the key makes unique. *)
Definition updateUnique (i c : string) (upd : CartItem.t -> CartItem.t)
    (rows : list CartItem.t) : list CartItem.t :=
  map (fun r => if hasKey i c r then upd r else r) rows.

(** [items: { upsert: { where: { id_cartId: { id: i, cartId: c } }, create: d, update } }] *)
Definition items_upsert (i c : string) (d : ItemCreate)
    (upd : CartItem.t -> CartItem.t) : Nested :=
  fun parent rows =>
    match findItem i c rows with
    | Some _ => Ok (updateUnique i c upd rows)
    | None => items_create d parent rows
    end.

(** [items: { updateMany: { where, data } }]: every related row that
    passes the filter is rewritten; there may be none. *)
Definition items_updateMany (where_ : CartItem.t -> bool)
    (upd : CartItem.t -> CartItem.t) : Nested :=
  fun parent rows =>
    Ok (map (fun r => if bool_decide (CartItem.cartId r = parent) && where_ r
                      then upd r else r) rows).

(** [items: { deleteMany: where }]: every related row that passes the
    filter is deleted; there may be none. *)
Definition items_deleteMany (where_ : CartItem.t -> bool) : Nested :=
  fun parent rows =>
    Ok (List.filter (fun r => negb (bool_decide (CartItem.cartId r = parent) && where_ r)) rows).

(** [prisma.cart.upsert({ where: { id: c }, create: { id: c, ...onCreate },
    update: onUpdate })].  The write is one transaction: on an error the
    store is left as it was. *)
Definition cart_upsert (c : string) (onCreate onUpdate : Nested) (s : Store)
    : Result (Cart.t * Store) :=
  if decide (c ∈ cartTable s) then
    match onUpdate c (cartItemTable s) with
    | Ok rows =>
        let s' := {| cartTable := cartTable s; cartItemTable := rows |} in
        Ok (loadCart s' c, s')
    | Err e => Err e
    end
  else
    match onCreate c (cartItemTable s) with
    | Ok rows =>
        let s' := {| cartTable := {[ c ]} ∪ cartTable s; cartItemTable := rows |} in
        Ok (loadCart s' c, s')
    | Err e => Err e
    end.

(** [prisma.cart.update({ where: { id: c }, data })]: rejects with
    record-not-found when no cart has id [c]. *)
Definition cart_update (c : string) (data : Nested) (s : Store)
    : Result (Cart.t * Store) :=
  if decide (c ∈ cartTable s) then
    match data c (cartItemTable s) with
    | Ok rows =>
        let s' := {| cartTable := cartTable s; cartItemTable := rows |} in
        Ok (loadCart s' c, s')
    | Err e => Err e
    end
  else Err RecordNotFound.

End Prisma.

(** ** GraphQL input objects *)

(** How a client may supply an optional input field. *)
Inductive Arg (A : Type) : Type :=
| Absent
| Null
| Given (a : A).
Arguments Absent {A}.
Arguments Null {A}.
Arguments Given {A} a.

(** Input coercion of one field: a declared default replaces an absent
    field only; an explicit [null] stays [null]. *)
Definition coerceField {A : Type} (dflt : option A) (a : Arg A) : option A :=
  match a with
  | Absent => dflt
  | Null => None
  | Given x => Some x
  end.

Module AddToCartInput.
Record t : Type := mk
  { cartId : string;
    id : string;
    name : string;
    description : option string;
    image : option string;
    price : Z;
    quantity : Arg Z }.
End AddToCartInput.

Module RemoveFromCartInput.
Record t : Type := mk { cartId : string; id : string }.
End RemoveFromCartInput.

Module IncreaseCartItemInput.
Record t : Type := mk { cartId : string; id : string }.
End IncreaseCartItemInput.

Module DecreaseCartItemInput.
Record t : Type := mk { cartId : string; id : string }.
End DecreaseCartItemInput.

Module CreateCheckoutSessionInput.
Record t : Type := mk { cartId : string }.
End CreateCheckoutSessionInput.

Definition currencyCode : string := "USD".

(** ** The resolver-map server (first program of the file) *)

Module Resolvers.

(** [schema.graphql] is read from disk and is not part of the source:
    the default it declares for [AddToCartInput.quantity], if any, is the
    parameter [dflt]. *)
Definition input_quantity (dflt : option Z) (input : AddToCartInput.t) : option Z :=
  coerceField dflt (AddToCartInput.quantity input).

(** [input.quantity || 1], used for both [create.quantity] and
    [update.quantity.increment]. *)
Definition addItem_quantity (dflt : option Z) (input : AddToCartInput.t) : Z :=
  JS.or_opt_num (input_quantity dflt input) 1.

(** The [create] object handed to [prisma.cartItem.upsert]. *)
Definition addItem_create (dflt : option Z) (input : AddToCartInput.t) : CartItem.t :=
  {| CartItem.cartId := AddToCartInput.cartId input;
     CartItem.id := AddToCartInput.id input;
     CartItem.name := AddToCartInput.name input;
     CartItem.description := AddToCartInput.description input;
     CartItem.image := AddToCartInput.image input;
     CartItem.price := AddToCartInput.price input;
     CartItem.quantity := addItem_quantity dflt input |}.

(** The [update] object handed to [prisma.cartItem.upsert]. *)
Definition addItem_update (dflt : option Z) (input : AddToCartInput.t)
    : CartItem.t -> CartItem.t :=
  Prisma.increment (addItem_quantity dflt input).

(** [Cart.totalItems]: the reducer is [(total + item.quantity) || 1]. *)
Definition totalItems (items : list CartItem.t) : Z :=
  JS.reduce (fun total item => JS.or_num (total + CartItem.quantity item) 1) 0 items.

(** [Cart.subTotal]: the [amount] field of the returned object. *)
Definition subTotal_amount (items : list CartItem.t) : Z :=
  JS.nullish
    (Some (JS.reduce
             (fun acc item => JS.add acc (JS.mul (CartItem.price item) (CartItem.quantity item)))
             0 items))
    0.

End Resolvers.

(** ** The payment gateway *)

Record ProductData : Type := mkProductData
  { pd_name : string;
    pd_description : option string;
    pd_images : list string }.

Record PriceData : Type := mkPriceData
  { currency : string;
    unit_amount : Z;
    product_data : ProductData }.

Record LineItem : Type := mkLineItem
  { li_quantity : Z;
    price_data : PriceData }.

Record SessionCreateParams : Type := mkParams
  { success_url : string;
    cancel_url : string;
    line_items : list LineItem;
    metadata_cartId : string;
    mode : string }.

Record Session : Type := mkSession
  { session_id : string;
    session_url : option string }.

Module CheckoutSession.
Record t : Type := mk { id : string; url : option string }.
End CheckoutSession.

(** ** The schema-builder server (second program of the file) *)

Module Builder.

(** [Query.cart]: [prisma.cart.upsert({ where: { id }, update: {},
    create: { id } })]. *)
Definition cart (id : string) (s : Store) : Result (Cart.t * Store) :=
  Prisma.cart_upsert id Prisma.noItems Prisma.noItems s.

(** [Money] wraps a number; [amount: t.int(...)] resolves to the number
    itself, which the [Int] scalar serialises only inside the signed 32-bit
    range and otherwise turns into a field error. *)
Definition Money_amount (amount : Z) : Result Z :=
  if decide (- 2 ^ 31 ≤ amount ≤ 2 ^ 31 - 1) then Ok amount
  else Err (GraphQLError "Int cannot represent non 32-bit signed integer value").

(** [Cart.totalItems] *)
Definition totalItems (cart : Cart.t) : Z :=
  JS.reduce (fun total item => JS.or_num (total + CartItem.quantity item) 1) 0
    (Cart.items cart).

(** [Cart.subTotal] *)
Definition subTotal (cart : Cart.t) : Z :=
  JS.nullish
    (Some (JS.reduce
             (fun acc item => JS.add acc (JS.mul (CartItem.price item) (CartItem.quantity item)))
             0 (Cart.items cart)))
    0.

(** [quantity: t.int({ defaultValue: 1 })] *)
Definition input_quantity (input : AddToCartInput.t) : option Z :=
  coerceField (Some 1) (AddToCartInput.quantity input).

(** [input.quantity ?? 1] *)
Definition addItem_quantity (input : AddToCartInput.t) : Z :=
  JS.nullish (input_quantity input) 1.

(** The constant [item] of the [addItem] resolver. *)
Definition addItem_item (input : AddToCartInput.t) : Prisma.ItemCreate :=
  {| Prisma.ic_id := AddToCartInput.id input;
     Prisma.ic_name := AddToCartInput.name input;
     Prisma.ic_description := AddToCartInput.description input;
     Prisma.ic_image := AddToCartInput.image input;
     Prisma.ic_price := AddToCartInput.price input;
     Prisma.ic_quantity := addItem_quantity input |}.

Definition addItem (input : AddToCartInput.t) (s : Store) : Result (Cart.t * Store) :=
  let item := addItem_item input in
  Prisma.cart_upsert (AddToCartInput.cartId input)
    (Prisma.items_create item)
    (Prisma.items_upsert (AddToCartInput.id input) (AddToCartInput.cartId input) item
       (Prisma.increment (addItem_quantity input)))
    s.

(** [where: { id: input.id }] on the cart, [deleteMany: { id: input.id }]
    on its items. *)
Definition removeItem (input : RemoveFromCartInput.t) (s : Store)
    : Result (Cart.t * Store) :=
  Prisma.cart_update (RemoveFromCartInput.id input)
    (Prisma.items_deleteMany
       (fun r => bool_decide (CartItem.id r = RemoveFromCartInput.id input)))
    s.

Definition increaseCartItem (input : IncreaseCartItemInput.t) (s : Store)
    : Result (Cart.t * Store) :=
  Prisma.cart_update (IncreaseCartItemInput.id input)
    (Prisma.items_updateMany
       (fun r => bool_decide (CartItem.id r = IncreaseCartItemInput.id input))
       (Prisma.increment 1))
    s.

Definition decreaseCartItem (input : DecreaseCartItemInput.t) (s : Store)
    : Result (Cart.t * Store) :=
  Prisma.cart_update (DecreaseCartItemInput.id input)
    (Prisma.items_updateMany
       (fun r => bool_decide (CartItem.id r = DecreaseCartItemInput.id input)
                 && bool_decide (1 ≤ CartItem.quantity r))
       (Prisma.decrement 1))
    s.

(** One element of [line_items]. *)
Definition line_item (item : CartItem.t) : LineItem :=
  {| li_quantity := CartItem.quantity item;
     price_data :=
       {| currency := currencyCode;
          unit_amount := CartItem.price item;
          product_data :=
            {| pd_name := CartItem.name item;
               pd_description := JS.or_undefined (CartItem.description item);
               pd_images :=
                 if JS.truthy (CartItem.image item)
                 then match CartItem.image item with Some i => [i] | None => [] end
                 else [] |} |} |}.

Section Checkout.
(** [origin] comes from [lib/client]; the gateway is the Stripe client,
    an external service that answers a request with a session or
    rejects it. *)
Variable origin : string.
Variable stripe_checkout_sessions_create : SessionCreateParams -> Result Session.

(** The resolver reads the store and may call the gateway; the calls
    made so far are threaded through as a log. *)
Definition createCheckoutSession (input : CreateCheckoutSessionInput.t)
    (s : Store) (calls : list SessionCreateParams)
    : Result CheckoutSession.t * list SessionCreateParams :=
  let cartId := CreateCheckoutSessionInput.cartId input in
  match Prisma.cart_findUnique cartId s with
  | None => (Err (GraphQLYogaError "Invalid cart"), calls)
  | Some cart =>
      if bool_decide (length (Cart.items cart) = 0%nat) then
        (Err (GraphQLYogaError "Cart is empty"), calls)
      else
        let line_items := map line_item (Cart.items cart) in
        let params :=
          {| success_url := origin +:+ "/thankyou?session_id={CHECKOUT_SESSION_ID}";
             cancel_url := origin +:+ "/cart?cancelled=true";
             line_items := line_items;
             metadata_cartId := Cart.id cart;
             mode := "payment" |} in
        match stripe_checkout_sessions_create params with
        | Ok session =>
            (Ok {| CheckoutSession.id := session_id session;
                   CheckoutSession.url := session_url session |},
             calls ++ [params])
        | Err e => (Err e, calls ++ [params])
        end
  end.
End Checkout.

End Builder.

(** ** Reference definitions, written after the specification *)

(** Sum of [f] over a list of items. *)
Definition sum_over (f : CartItem.t -> Z) (items : list CartItem.t) : Z :=
  foldr (fun item acc => f item + acc) 0 items.

(** The sub-total of the specification: sum of price times quantity. *)
Definition subTotal_spec (items : list CartItem.t) : Z :=
  sum_over (fun item => CartItem.price item * CartItem.quantity item) items.

(** The line amounts of a cart stay where doubles are exact: the sum of
    their absolute values, which bounds every partial sum, is below [2^53]. *)
Definition exact_amounts (items : list CartItem.t) : Prop :=
  sum_over (fun item => Z.abs (CartItem.price item * CartItem.quantity item)) items
  < 2 ^ 53.

(** The item count of the specification: a quantity of zero counts as one,
    item by item. *)
Definition totalItems_per_item (items : list CartItem.t) : Z :=
  sum_over (fun item => if decide (CartItem.quantity item = 0) then 1
                        else CartItem.quantity item) items.

(** The quantity a call of [addItem] supplies, [1] when unspecified. *)
Definition supplied_quantity (q : Arg Z) : Z :=
  match q with
  | Given n => n
  | Absent | Null => 1
  end.

(** The two validation errors of the checkout, under the names the
    specification gives them. *)
Definition InvalidCart : Error := GraphQLYogaError "Invalid cart".
Definition EmptyCart : Error := GraphQLYogaError "Cart is empty".

(** A failed mutation leaves the store as it was. *)
Definition store_after {A : Type} (r : Result (A * Store)) (s : Store) : Store :=
  match r with
  | Ok (_, s') => s'
  | Err _ => s
  end.

(** A run of [decreaseCartItem] calls, one after the other. *)
Definition decrease_calls (inputs : list DecreaseCartItemInput.t) (s : Store) : Store :=
  fold_left (fun st input => store_after (Builder.decreaseCartItem input st) st) inputs s.

(** A run of one mutation, kept or rolled back. *)
Definition after_removeItem (input : RemoveFromCartInput.t) (s : Store) : Store :=
  store_after (Builder.removeItem input s) s.

Definition after_increaseCartItem (input : IncreaseCartItemInput.t) (s : Store) : Store :=
  store_after (Builder.increaseCartItem input s) s.

Definition after_decreaseCartItem (input : DecreaseCartItemInput.t) (s : Store) : Store :=
  store_after (Builder.decreaseCartItem input s) s.

(** What [increaseCartItem] with [input.id = k] does to one row, once the
    cart with id [k] is found. *)
Definition increased (k : string) (r : CartItem.t) : CartItem.t :=
  if bool_decide (CartItem.cartId r = k) && bool_decide (CartItem.id r = k)
  then Prisma.increment 1 r else r.

(** What [decreaseCartItem] with [input.id = k] does to one row, once the
    cart with id [k] is found. *)
Definition decreased (k : string) (r : CartItem.t) : CartItem.t :=
  if bool_decide (CartItem.cartId r = k)
     && (bool_decide (CartItem.id r = k) && bool_decide (1 ≤ CartItem.quantity r))
  then Prisma.decrement 1 r else r.

(** The compound key of a row. *)
Definition item_key (r : CartItem.t) : string * string :=
  (CartItem.id r, CartItem.cartId r).

(** The compound key is unique in the item table. *)
Definition unique_keys (s : Store) : Prop :=
  NoDup (map item_key (cartItemTable s)).

(** No stored quantity is negative. *)
Definition quantities_nonnegative (s : Store) : Prop :=
  Forall (fun r => 0 ≤ CartItem.quantity r) (cartItemTable s).

(** The amount a checkout request asks the gateway to charge. *)
Definition charged (p : SessionCreateParams) : Z :=
  foldr (fun line acc => li_quantity line * unit_amount (price_data line) + acc) 0
    (line_items p).

(** Referential integrity: every item row points to an existing cart. *)
Definition foreign_keys (s : Store) : Prop :=
  Forall (fun r => CartItem.cartId r ∈ cartTable s) (cartItemTable s).

(** What the specification asks of the payment line made from an item. *)
Definition projects (item : CartItem.t) (line : LineItem) : Prop :=
  li_quantity line = CartItem.quantity item
  ∧ unit_amount (price_data line) = CartItem.price item
  ∧ currency (price_data line) = "USD"%string
  ∧ pd_name (product_data (price_data line)) = CartItem.name item
  ∧ pd_description (product_data (price_data line))
    = (match CartItem.description item with
       | Some d => if decide (d = EmptyString) then None else Some d
       | None => None
       end)
  ∧ pd_images (product_data (price_data line))
    = (match CartItem.image item with
       | Some i => if decide (i = EmptyString) then [] else [i]
       | None => []
       end).

(** ** Sample data *)

Definition empty_store : Store := {| cartTable := ∅; cartItemTable := [] |}.

Definition mug (q : Z) : CartItem.t :=
  {| CartItem.id := "i1"; CartItem.cartId := "c1"; CartItem.name := "Mug";
     CartItem.description := None; CartItem.image := None;
     CartItem.price := 500; CartItem.quantity := q |}.

Definition pen (q : Z) : CartItem.t :=
  {| CartItem.id := "i2"; CartItem.cartId := "c1"; CartItem.name := "Pen";
     CartItem.description := Some "Blue ink"%string;
     CartItem.image := Some "https://img.example/pen.png"%string;
     CartItem.price := 120; CartItem.quantity := q |}.

(** Cart "c1" holding two mugs. *)
Definition store_c1 : Store :=
  {| cartTable := {[ "c1"%string ]}; cartItemTable := [mug 2] |}.

(** The same, next to an empty cart whose id is the mug's item id. *)
Definition store_c1_i1 : Store :=
  {| cartTable := {[ "c1"%string; "i1"%string ]}; cartItemTable := [mug 2] |}.

(** An item whose id happens to be the id of its cart. *)
Definition box (q : Z) : CartItem.t :=
  {| CartItem.id := "c1"; CartItem.cartId := "c1"; CartItem.name := "Box";
     CartItem.description := None; CartItem.image := None;
     CartItem.price := 900; CartItem.quantity := q |}.

(** Cart "c1" holding one box and two mugs. *)
Definition store_box : Store :=
  {| cartTable := {[ "c1"%string ]}; cartItemTable := [box 1; mug 2] |}.

Definition decrease_box : DecreaseCartItemInput.t :=
  {| DecreaseCartItemInput.cartId := "c1"; DecreaseCartItemInput.id := "c1" |}.

Definition decrease_mug : DecreaseCartItemInput.t :=
  {| DecreaseCartItemInput.cartId := "c1"; DecreaseCartItemInput.id := "i1" |}.

Definition increase_mug : IncreaseCartItemInput.t :=
  {| IncreaseCartItemInput.cartId := "c1"; IncreaseCartItemInput.id := "i1" |}.

Definition remove_mug : RemoveFromCartInput.t :=
  {| RemoveFromCartInput.cartId := "c1"; RemoveFromCartInput.id := "i1" |}.

Definition remove_box : RemoveFromCartInput.t :=
  {| RemoveFromCartInput.cartId := "c1"; RemoveFromCartInput.id := "c1" |}.

(** Cart "c1" without items. *)
Definition store_c1_empty : Store :=
  {| cartTable := {[ "c1"%string ]}; cartItemTable := [] |}.

(** Cart "c1" holding two mugs and a pen of quantity zero. *)
Definition cart_mug_pen0 : Cart.t :=
  {| Cart.id := "c1"; Cart.items := [mug 2; pen 0] |}.

Definition add_mug (q : Arg Z) : AddToCartInput.t :=
  {| AddToCartInput.cartId := "c1"; AddToCartInput.id := "i1";
     AddToCartInput.name := "Mug"; AddToCartInput.description := None;
     AddToCartInput.image := None; AddToCartInput.price := 500;
     AddToCartInput.quantity := q |}.

Definition add_mug_renamed (q : Arg Z) : AddToCartInput.t :=
  {| AddToCartInput.cartId := "c1"; AddToCartInput.id := "i1";
     AddToCartInput.name := "Cup"; AddToCartInput.description := Some "Tin"%string;
     AddToCartInput.image := Some "cup.png"%string; AddToCartInput.price := 700;
     AddToCartInput.quantity := q |}.

Definition add_pen0 : AddToCartInput.t :=
  {| AddToCartInput.cartId := "c1"; AddToCartInput.id := "i2";
     AddToCartInput.name := "Pen"; AddToCartInput.description := Some "Blue ink"%string;
     AddToCartInput.image := Some "https://img.example/pen.png"%string;
     AddToCartInput.price := 120; AddToCartInput.quantity := Given 0 |}.

(** An item of cart "c1" with a chosen price and quantity. *)
Definition jewel (p q : Z) : CartItem.t :=
  {| CartItem.id := "i9"; CartItem.cartId := "c1"; CartItem.name := "Jewel";
     CartItem.description := None; CartItem.image := None;
     CartItem.price := p; CartItem.quantity := q |}.

(** A gateway that accepts every request. *)
Definition accepting_gateway (p : SessionCreateParams) : Result Session :=
  Ok {| session_id := "cs_1"; session_url := Some "https://pay.example/cs_1"%string |}.

(** A nested write keeps every row inside the cart table [T], provided
    its parent is in [T]. *)
Definition keeps_keys (op : Prisma.Nested) : Prop :=
  ∀ (T : gset string) (parent : string) (rows rows' : list CartItem.t),
    parent ∈ T ->
    Forall (fun r => CartItem.cartId r ∈ T) rows ->
    op parent rows = Ok rows' ->
    Forall (fun r => CartItem.cartId r ∈ T) rows'.

(** A nested write keeps the compound key unique. *)
Definition keeps_unique (op : Prisma.Nested) : Prop :=
  ∀ (parent : string) (rows rows' : list CartItem.t),
    NoDup (map item_key rows) -> op parent rows = Ok rows' -> NoDup (map item_key rows').

(** The stores the schema-builder server can reach from the empty one. *)
Inductive reachable : Store -> Prop :=
| reach_empty : reachable empty_store
| reach_cart id s c s' :
    reachable s -> Builder.cart id s = Ok (c, s') -> reachable s'
| reach_addItem input s c s' :
    reachable s -> Builder.addItem input s = Ok (c, s') -> reachable s'
| reach_removeItem input s c s' :
    reachable s -> Builder.removeItem input s = Ok (c, s') -> reachable s'
| reach_increaseCartItem input s c s' :
    reachable s -> Builder.increaseCartItem input s = Ok (c, s') -> reachable s'
| reach_decreaseCartItem input s c s' :
    reachable s -> Builder.decreaseCartItem input s = Ok (c, s') -> reachable s'.

(** ** Sums and reductions *)

Section Reduce.
Variable f : CartItem.t -> Z.

Lemma reduce_add_from (items : list CartItem.t) (a : Z) :
  JS.reduce (fun acc item => acc + f item) a items = a + sum_over f items.
Proof.
  unfold JS.reduce. revert a.
  induction items as [|x xs IH]; intros a; simpl.
  - lia.
  - rewrite IH. lia.
Qed.

Lemma reduce_add (items : list CartItem.t) :
  JS.reduce (fun acc item => acc + f item) 0 items = sum_over f items.
Proof. rewrite reduce_add_from. lia. Qed.
End Reduce.

Lemma round53_exact (x : Z) : Z.abs x < 2 ^ 53 -> JS.round53 x = x.
Proof.
  intros Hx. unfold JS.round53. cbv zeta.
  destruct (Z.ltb_spec (Z.abs x) (2 ^ 53)) as [_|Hge]; [reflexivity | lia].
Qed.

Lemma sum_over_abs_nonneg (f : CartItem.t -> Z) (items : list CartItem.t) :
  0 ≤ sum_over (fun item => Z.abs (f item)) items.
Proof. induction items as [|x xs IH]; simpl; lia. Qed.

(** Below [2^53] the reduction of [subTotal] is the exact sum. *)
Lemma subTotal_reduce_exact (items : list CartItem.t) (a : Z) :
  Z.abs a
  + sum_over (fun item => Z.abs (CartItem.price item * CartItem.quantity item)) items
  < 2 ^ 53 ->
  JS.reduce
    (fun acc item => JS.add acc (JS.mul (CartItem.price item) (CartItem.quantity item)))
    a items
  = a + subTotal_spec items.
Proof.
  unfold JS.reduce, subTotal_spec. revert a.
  induction items as [|x xs IH]; intros a Ha; simpl in *; [lia|].
  pose proof (sum_over_abs_nonneg
                (fun item => CartItem.price item * CartItem.quantity item) xs) as Hxs.
  unfold JS.mul. rewrite (round53_exact (CartItem.price x * CartItem.quantity x)) by lia.
  unfold JS.add. rewrite round53_exact by lia.
  rewrite IH by lia. lia.
Qed.

Lemma subTotal_exact (c : string) (items : list CartItem.t) :
  exact_amounts items ->
  Builder.subTotal {| Cart.id := c; Cart.items := items |} = subTotal_spec items
  ∧ Resolvers.subTotal_amount items = subTotal_spec items.
Proof.
  unfold exact_amounts, Builder.subTotal, Resolvers.subTotal_amount, JS.nullish.
  intros H. simpl. rewrite subTotal_reduce_exact by (simpl; lia). split; lia.
Qed.

(** C4, as stated, fails: with price and quantity both 2147483647 the
    product is beyond [2^53] and the sub-total is the rounded double, not
    the sum; and a sub-total of 4000000000 is a number the [Int] field
    [amount] refuses. *)
Lemma subTotal_rounded_or_refused :
  Builder.subTotal {| Cart.id := "c1"; Cart.items := [jewel 2147483647 2147483647] |}
  = 4611686014132420608
  ∧ subTotal_spec [jewel 2147483647 2147483647] = 4611686014132420609
  ∧ Builder.subTotal {| Cart.id := "c1"; Cart.items := [jewel 2147483647 2147483647] |}
    ≠ subTotal_spec [jewel 2147483647 2147483647]
  ∧ Builder.Money_amount
      (Builder.subTotal {| Cart.id := "c1"; Cart.items := [jewel 2000000000 2] |})
    = Err (GraphQLError "Int cannot represent non 32-bit signed integer value").
Proof.
  split; [vm_compute; reflexivity|]. split; [vm_compute; reflexivity|].
  split; [vm_compute; discriminate | vm_compute; reflexivity].
Qed.

(** C4, amended.  For every cart whose line amounts stay where doubles are
    exact (the sum of |price * quantity| over its items is below 2^53), the
    sub-total computed by both servers is the sum over the items of price
    times quantity, and when that sum is in the signed 32-bit range the
    field [amount] returns it; for a cart without items it is 0. *)
Theorem subTotal_amount_is_sum (cart : Cart.t) :
  exact_amounts (Cart.items cart) ->
  Builder.subTotal cart = subTotal_spec (Cart.items cart)
  ∧ Resolvers.subTotal_amount (Cart.items cart) = subTotal_spec (Cart.items cart)
  ∧ (- 2 ^ 31 ≤ subTotal_spec (Cart.items cart) ≤ 2 ^ 31 - 1 ->
     Builder.Money_amount (Builder.subTotal cart) = Ok (subTotal_spec (Cart.items cart)))
  ∧ Builder.Money_amount (Builder.subTotal {| Cart.id := Cart.id cart; Cart.items := [] |})
    = Ok 0
  ∧ Resolvers.subTotal_amount [] = 0.
Proof.
  intros Hexact. destruct cart as [c items].
  destruct (subTotal_exact c items Hexact) as [Hb Hr]. simpl in *.
  split; [exact Hb|]. split; [exact Hr|]. split; [|split; reflexivity].
  intros Hrange. rewrite Hb. unfold Builder.Money_amount.
  rewrite decide_True by exact Hrange. reflexivity.
Qed.

Lemma subTotal_amount_is_sum_witness :
  Builder.subTotal {| Cart.id := "c1"; Cart.items := [mug 2; pen 3] |} = 1360
  ∧ Builder.Money_amount (Builder.subTotal {| Cart.id := "c1"; Cart.items := [mug 2; pen 3] |})
    = Ok 1360.
Proof.
  destruct (subTotal_amount_is_sum {| Cart.id := "c1"; Cart.items := [mug 2; pen 3] |})
    as (Hsum & _ & Hamount & _); [vm_compute; reflexivity|].
  split; [exact Hsum|]. apply Hamount. vm_compute. split; discriminate.
Defined.

(** C7. On cart "c1" holding a mug of quantity 2 followed by a pen of
    quantity 0, both servers report [totalItems = 2], because [|| 1] applies
    to the running total [total + item.quantity] and not to the item's own
    quantity; counting a zero quantity as one item by item gives 3.  A cart
    whose only item has quantity 0 does report 1. *)
Theorem totalItems_running_total :
  Builder.totalItems cart_mug_pen0 = 2
  ∧ Resolvers.totalItems (Cart.items cart_mug_pen0) = 2
  ∧ totalItems_per_item (Cart.items cart_mug_pen0) = 3
  ∧ Builder.totalItems {| Cart.id := "c1"; Cart.items := [pen 0] |} = 1.
Proof. repeat split; reflexivity. Qed.

(** The reducer of [totalItems], step by step: the running total is
    replaced by 1 exactly when it would be 0. *)
Lemma totalItems_snoc (c : string) (items : list CartItem.t) (item : CartItem.t) :
  Builder.totalItems {| Cart.id := c; Cart.items := items ++ [item] |}
  = JS.or_num (Builder.totalItems {| Cart.id := c; Cart.items := items |}
               + CartItem.quantity item) 1.
Proof.
  unfold Builder.totalItems, JS.reduce. simpl.
  rewrite fold_left_app. reflexivity.
Qed.




(** ** The effective quantity of [addItem] in the two servers *)

(** C10, as stated, fails: for an input whose quantity is 0 the resolver-map
    server uses 1 and the schema-builder server uses 0. *)
Lemma addItem_quantity_differs_at_zero :
  Resolvers.addItem_quantity (Some 1) (add_mug (Given 0)) = 1
  ∧ Builder.addItem_quantity (add_mug (Given 0)) = 0
  ∧ Resolvers.addItem_quantity (Some 1) (add_mug (Given 0))
    ≠ Builder.addItem_quantity (add_mug (Given 0)).
Proof. repeat split; try reflexivity. vm_compute. discriminate. Qed.

(** C10, amended. When the quantity field is absent, null or a non-zero
    integer, both servers use the same quantity for the created row and for
    the increment of an existing row (the schema of the resolver-map server
    declaring no default or the default 1); when it is 0 the resolver-map
    server uses 1 and the schema-builder server uses 0. *)
Theorem addItem_quantity_agreement (dflt : option Z) (input : AddToCartInput.t) :
  dflt = None ∨ dflt = Some 1 ->
  (AddToCartInput.quantity input ≠ Given 0 ->
     Resolvers.addItem_quantity dflt input = Builder.addItem_quantity input
     ∧ Resolvers.addItem_create dflt input
       = Prisma.rowOf (AddToCartInput.cartId input) (Builder.addItem_item input)
     ∧ ∀ r, Resolvers.addItem_update dflt input r
            = Prisma.increment (Builder.addItem_quantity input) r)
  ∧ (AddToCartInput.quantity input = Given 0 ->
     Resolvers.addItem_quantity dflt input = 1
     ∧ Builder.addItem_quantity input = 0).
Proof.
  intros Hd. split.
  - intros Hq.
    assert (Heq : Resolvers.addItem_quantity dflt input = Builder.addItem_quantity input).
    { unfold Resolvers.addItem_quantity, Builder.addItem_quantity,
        Resolvers.input_quantity, Builder.input_quantity.
      destruct (AddToCartInput.quantity input) as [| |n]; simpl.
      - destruct Hd as [-> | ->]; reflexivity.
      - reflexivity.
      - unfold JS.or_num. case_decide; [subst n; contradiction | reflexivity]. }
    split; [exact Heq|]. split.
    + unfold Resolvers.addItem_create, Prisma.rowOf, Builder.addItem_item. simpl.
      rewrite Heq. reflexivity.
    + intros r. unfold Resolvers.addItem_update. rewrite Heq. reflexivity.
  - intros Hq.
    unfold Resolvers.addItem_quantity, Builder.addItem_quantity,
      Resolvers.input_quantity, Builder.input_quantity.
    rewrite Hq. split; reflexivity.
Qed.

Lemma addItem_quantity_agreement_witness :
  Resolvers.addItem_quantity None (add_mug Absent) = Builder.addItem_quantity (add_mug Absent)
  ∧ Resolvers.addItem_quantity (Some 1) (add_mug Null) = Builder.addItem_quantity (add_mug Null)
  ∧ Resolvers.addItem_quantity None (add_mug (Given 3)) = Builder.addItem_quantity (add_mug (Given 3))
  ∧ Resolvers.addItem_quantity None (add_mug (Given 0)) = 1.
Proof.
  split; [|split; [|split]].
  - destruct (addItem_quantity_agreement None (add_mug Absent)) as [Hsame _];
      [left; reflexivity |].
    apply Hsame. simpl. discriminate.
  - destruct (addItem_quantity_agreement (Some 1) (add_mug Null)) as [Hsame _];
      [right; reflexivity |].
    apply Hsame. simpl. discriminate.
  - destruct (addItem_quantity_agreement None (add_mug (Given 3))) as [Hsame _];
      [left; reflexivity |].
    apply Hsame. simpl. discriminate.
  - destruct (addItem_quantity_agreement None (add_mug (Given 0))) as [_ Hzero];
      [left; reflexivity |].
    apply Hzero. reflexivity.
Defined.

(** ** Reading a cart *)

Lemma itemsOf_no_cart (s : Store) (c : string) :
  foreign_keys s -> c ∉ cartTable s -> Prisma.itemsOf c (cartItemTable s) = [].
Proof.
  unfold foreign_keys, Prisma.itemsOf. intros Hfk Hc.
  induction Hfk as [|r rows Hr _ IH]; [reflexivity|].
  rewrite filter_cons. case_decide as Heq; [|exact IH].
  subst c. contradiction.
Qed.

Lemma cart_upsert_noItems (c : string) (s : Store) :
  Prisma.cart_upsert c Prisma.noItems Prisma.noItems s
  = Ok (Prisma.loadCart s c,
        {| cartTable := (if decide (c ∈ cartTable s) then cartTable s
                         else {[ c ]} ∪ cartTable s);
           cartItemTable := cartItemTable s |}).
Proof.
  unfold Prisma.cart_upsert, Prisma.noItems, Prisma.loadCart.
  case_decide; reflexivity.
Qed.

(** C8. Reading a cart by id always succeeds and returns a cart with that
    id.  When the cart exists the store is unchanged; when it does not, a
    cart with that id and no items is created and returned, the other rows
    being untouched.  No error is raised in either case. *)
Theorem cart_find_or_create (id : string) (s : Store) :
  foreign_keys s ->
  ∃ c s',
    Builder.cart id s = Ok (c, s')
    ∧ Cart.id c = id
    ∧ id ∈ cartTable s'
    ∧ cartItemTable s' = cartItemTable s
    ∧ Prisma.cart_findUnique id s' = Some c
    ∧ (id ∈ cartTable s -> s' = s ∧ Prisma.cart_findUnique id s = Some c)
    ∧ (id ∉ cartTable s -> cartTable s' = {[ id ]} ∪ cartTable s ∧ Cart.items c = []).
Proof.
  intros Hfk. unfold Builder.cart. rewrite cart_upsert_noItems.
  eexists _, _. split; [reflexivity|]. simpl.
  split; [reflexivity|].
  split; [case_decide; set_solver|].
  split; [reflexivity|].
  split.
  { unfold Prisma.cart_findUnique. simpl.
    rewrite decide_True by (case_decide; set_solver). reflexivity. }
  split.
  - intros Hin. rewrite decide_True by exact Hin.
    split; [destruct s; reflexivity|].
    unfold Prisma.cart_findUnique. rewrite decide_True by exact Hin. reflexivity.
  - intros Hout. rewrite decide_False by exact Hout.
    split; [reflexivity|]. apply itemsOf_no_cart; assumption.
Qed.

Lemma cart_find_or_create_witness :
  ∃ c s',
    Builder.cart "c1" empty_store = Ok (c, s')
    ∧ Cart.id c = "c1"%string
    ∧ Cart.items c = [].
Proof.
  assert (Hfk : foreign_keys empty_store) by (unfold foreign_keys; simpl; constructor).
  assert (Hout : "c1"%string ∉ cartTable empty_store) by (vm_compute; discriminate).
  destruct (cart_find_or_create "c1" empty_store Hfk)
    as (c & s' & Hrun & Hid & _ & _ & _ & _ & Hnew).
  exists c, s'. split; [exact Hrun|]. split; [exact Hid|].
  apply Hnew; exact Hout.
Defined.

(** ** Checkout *)

Section CheckoutFacts.
Variable origin : string.
Variable gateway : SessionCreateParams -> Result Session.

Lemma checkout_no_cart input s calls :
  Prisma.cart_findUnique (CreateCheckoutSessionInput.cartId input) s = None ->
  Builder.createCheckoutSession origin gateway input s calls = (Err InvalidCart, calls).
Proof. intros H. unfold Builder.createCheckoutSession. rewrite H. reflexivity. Qed.

Lemma checkout_no_items input s calls cart :
  Prisma.cart_findUnique (CreateCheckoutSessionInput.cartId input) s = Some cart ->
  Cart.items cart = [] ->
  Builder.createCheckoutSession origin gateway input s calls = (Err EmptyCart, calls).
Proof.
  intros H Hnil. unfold Builder.createCheckoutSession. rewrite H, Hnil. reflexivity.
Qed.

Lemma checkout_calls_gateway input s calls cart :
  Prisma.cart_findUnique (CreateCheckoutSessionInput.cartId input) s = Some cart ->
  Cart.items cart ≠ [] ->
  ∃ params,
    (Builder.createCheckoutSession origin gateway input s calls).2 = calls ++ [params]
    ∧ line_items params = map Builder.line_item (Cart.items cart)
    ∧ metadata_cartId params = CreateCheckoutSessionInput.cartId input.
Proof.
  intros H Hne. unfold Builder.createCheckoutSession. rewrite H.
  destruct (Cart.items cart) as [|x xs] eqn:Hitems; [contradiction|].
  rewrite bool_decide_false by (simpl; lia).
  eexists. split.
  - destruct (gateway _); reflexivity.
  - simpl. split; [reflexivity|].
    unfold Prisma.cart_findUnique in H. case_decide; [|discriminate].
    injection H as <-. reflexivity.
Qed.
End CheckoutFacts.

Lemma cart_findUnique_spec (c : string) (s : Store) :
  (c ∉ cartTable s -> Prisma.cart_findUnique c s = None)
  ∧ (c ∈ cartTable s -> Prisma.cart_findUnique c s = Some (Prisma.loadCart s c)).
Proof.
  unfold Prisma.cart_findUnique. split; intros H.
  - rewrite decide_False by exact H. reflexivity.
  - rewrite decide_True by exact H. reflexivity.
Qed.

(** C2. [createCheckoutSession] fails with [InvalidCart] when no cart record
    has the given id and with [EmptyCart] when the cart exists without
    items; in both cases the log of gateway calls is unchanged.  The gateway
    is called (once) exactly when the cart exists and has an item. *)
Theorem createCheckoutSession_validates
    (origin : string) (gateway : SessionCreateParams -> Result Session)
    (input : CreateCheckoutSessionInput.t) (s : Store)
    (calls : list SessionCreateParams) :
  let cartId := CreateCheckoutSessionInput.cartId input in
  let run := Builder.createCheckoutSession origin gateway input s calls in
  (cartId ∉ cartTable s -> run = (Err InvalidCart, calls))
  ∧ (cartId ∈ cartTable s -> Prisma.itemsOf cartId (cartItemTable s) = [] ->
     run = (Err EmptyCart, calls))
  ∧ (cartId ∈ cartTable s -> Prisma.itemsOf cartId (cartItemTable s) ≠ [] ->
     ∃ params, run.2 = calls ++ [params])
  ∧ (run.2 ≠ calls ->
     cartId ∈ cartTable s ∧ Prisma.itemsOf cartId (cartItemTable s) ≠ []).
Proof.
  intros cartId run. subst run.
  destruct (cart_findUnique_spec cartId s) as [Hnone Hsome].
  split; [|split; [|split]].
  - intros Hout. apply checkout_no_cart. apply Hnone, Hout.
  - intros Hin Hnil. eapply checkout_no_items; [apply Hsome, Hin | exact Hnil].
  - intros Hin Hne.
    destruct (checkout_calls_gateway origin gateway input s calls _ (Hsome Hin) Hne)
      as (params & Hlog & _).
    exists params. exact Hlog.
  - intros Hcalled.
    destruct (decide (cartId ∈ cartTable s)) as [Hin|Hout].
    + split; [exact Hin|]. intros Hnil. apply Hcalled.
      erewrite checkout_no_items; [reflexivity | apply Hsome, Hin | exact Hnil].
    + exfalso. apply Hcalled. rewrite checkout_no_cart; [reflexivity | apply Hnone, Hout].
Qed.

Lemma createCheckoutSession_validates_witness :
  Builder.createCheckoutSession "https://shop.example" accepting_gateway
    {| CreateCheckoutSessionInput.cartId := "c1" |} empty_store []
  = (Err InvalidCart, [])
  ∧ Builder.createCheckoutSession "https://shop.example" accepting_gateway
      {| CreateCheckoutSessionInput.cartId := "c1" |} store_c1_empty []
    = (Err EmptyCart, [])
  ∧ ∃ params,
      (Builder.createCheckoutSession "https://shop.example" accepting_gateway
         {| CreateCheckoutSessionInput.cartId := "c1" |} store_c1 []).2 = [] ++ [params].
Proof.
  split; [|split].
  - apply (createCheckoutSession_validates "https://shop.example" accepting_gateway
             {| CreateCheckoutSessionInput.cartId := "c1" |} empty_store []).
    vm_compute. discriminate.
  - apply (createCheckoutSession_validates "https://shop.example" accepting_gateway
             {| CreateCheckoutSessionInput.cartId := "c1" |} store_c1_empty []).
    + vm_compute. reflexivity.
    + vm_compute. reflexivity.
  - apply (createCheckoutSession_validates "https://shop.example" accepting_gateway
             {| CreateCheckoutSessionInput.cartId := "c1" |} store_c1 []).
    + vm_compute. reflexivity.
    + vm_compute. discriminate.
Defined.

Lemma line_item_projects (item : CartItem.t) : projects item (Builder.line_item item).
Proof.
  unfold projects, Builder.line_item, JS.or_undefined, currencyCode. simpl.
  split; [reflexivity|]. split; [reflexivity|]. split; [reflexivity|].
  split; [reflexivity|]. split.
  - destruct (CartItem.description item) as [d|]; simpl; [|reflexivity].
    case_decide as Hd.
    + rewrite bool_decide_true by exact Hd. reflexivity.
    + rewrite bool_decide_false by exact Hd. reflexivity.
  - destruct (CartItem.image item) as [i|]; simpl; [|reflexivity].
    case_decide as Hi.
    + rewrite bool_decide_true by exact Hi. reflexivity.
    + rewrite bool_decide_false by exact Hi. reflexivity.
Qed.

Lemma line_items_project_all (items : list CartItem.t) :
  Forall2 projects items (map Builder.line_item items).
Proof.
  induction items as [|item items IH]; simpl; constructor.
  - apply line_item_projects.
  - exact IH.
Qed.

(** C9. Whenever [createCheckoutSession] reaches the gateway, the request
    carries one payment line per cart item, in order, each with the item's
    quantity, its price as unit amount, currency "USD", its name, its
    description when that is a non-empty string and none otherwise, and the
    images [[image]] when the image is a non-empty string and [[]] otherwise. *)
Theorem line_items_project_items
    (origin : string) (gateway : SessionCreateParams -> Result Session)
    (input : CreateCheckoutSessionInput.t) (s : Store)
    (calls : list SessionCreateParams) (cart : Cart.t) :
  Prisma.cart_findUnique (CreateCheckoutSessionInput.cartId input) s = Some cart ->
  Cart.items cart ≠ [] ->
  ∃ params,
    (Builder.createCheckoutSession origin gateway input s calls).2 = calls ++ [params]
    ∧ length (line_items params) = length (Cart.items cart)
    ∧ Forall2 projects (Cart.items cart) (line_items params).
Proof.
  intros Hcart Hne.
  destruct (checkout_calls_gateway origin gateway input s calls cart Hcart Hne)
    as (params & Hlog & Hlines & _).
  exists params. split; [exact Hlog|]. rewrite Hlines. split.
  - apply length_map.
  - apply line_items_project_all.
Qed.

Lemma line_items_project_items_witness :
  ∃ params,
    (Builder.createCheckoutSession "https://shop.example" accepting_gateway
       {| CreateCheckoutSessionInput.cartId := "c1" |}
       {| cartTable := {[ "c1"%string ]}; cartItemTable := [mug 2; pen 1] |} []).2
    = [] ++ [params]
    ∧ length (line_items params) = 2%nat
    ∧ Forall2 projects [mug 2; pen 1] (line_items params).
Proof.
  apply (line_items_project_items "https://shop.example" accepting_gateway
           {| CreateCheckoutSessionInput.cartId := "c1" |}
           {| cartTable := {[ "c1"%string ]}; cartItemTable := [mug 2; pen 1] |} []
           {| Cart.id := "c1"; Cart.items := [mug 2; pen 1] |}).
  - vm_compute. reflexivity.
  - simpl. discriminate.
Defined.

(** ** The item table under the compound key *)

Section ItemKey.
Variables i c : string.

Lemma hasKey_true (r : CartItem.t) :
  Prisma.hasKey i c r = true <-> CartItem.id r = i ∧ CartItem.cartId r = c.
Proof.
  unfold Prisma.hasKey. rewrite andb_true_iff, !bool_decide_eq_true. reflexivity.
Qed.

Lemma findItem_cons (r : CartItem.t) (rows : list CartItem.t) :
  Prisma.findItem i c (r :: rows)
  = if Prisma.hasKey i c r then Some r else Prisma.findItem i c rows.
Proof. reflexivity. Qed.

Lemma findItem_Some_key (rows : list CartItem.t) (r : CartItem.t) :
  Prisma.findItem i c rows = Some r ->
  CartItem.id r = i ∧ CartItem.cartId r = c ∧ r ∈ rows.
Proof.
  unfold Prisma.findItem. intros H. apply find_some in H as [Hin Hhit].
  apply hasKey_true in Hhit as [Hi Hc].
  split; [exact Hi|]. split; [exact Hc|]. apply list_elem_of_In, Hin.
Qed.

Lemma findItem_None_all (rows : list CartItem.t) :
  Prisma.findItem i c rows = None <-> Forall (fun r => Prisma.hasKey i c r = false) rows.
Proof.
  induction rows as [|r rows IH].
  - split; [constructor | reflexivity].
  - rewrite findItem_cons. destruct (Prisma.hasKey i c r) eqn:Hr.
    + split; [discriminate|]. intros H. inversion H; congruence.
    + rewrite IH. split; [constructor; assumption | intros H; inversion H; assumption].
Qed.

Lemma findItem_snoc_fresh (rows : list CartItem.t) (r : CartItem.t) :
  Prisma.findItem i c rows = None ->
  Prisma.findItem i c (rows ++ [r]) = if Prisma.hasKey i c r then Some r else None.
Proof.
  induction rows as [|x rows IH]; intros H.
  - reflexivity.
  - rewrite <- app_comm_cons, findItem_cons. rewrite findItem_cons in H.
    destruct (Prisma.hasKey i c x); [discriminate|]. apply IH, H.
Qed.

Lemma updateUnique_fresh (upd : CartItem.t -> CartItem.t) (rows : list CartItem.t) :
  Prisma.findItem i c rows = None -> Prisma.updateUnique i c upd rows = rows.
Proof.
  rewrite findItem_None_all. unfold Prisma.updateUnique.
  induction 1 as [|r rows Hr _ IH]; simpl; [reflexivity|].
  rewrite Hr, IH. reflexivity.
Qed.

Lemma findItem_snoc_hit (rows : list CartItem.t) (r : CartItem.t) :
  Prisma.findItem i c rows = None ->
  CartItem.id r = i -> CartItem.cartId r = c ->
  Prisma.findItem i c (rows ++ [r]) = Some r.
Proof.
  intros Hfree Hi Hc. rewrite findItem_snoc_fresh by exact Hfree.
  replace (Prisma.hasKey i c r) with true; [reflexivity|].
  symmetry. apply hasKey_true. split; assumption.
Qed.

Lemma updateUnique_hit (upd : CartItem.t -> CartItem.t) (r : CartItem.t) :
  CartItem.id r = i -> CartItem.cartId r = c ->
  Prisma.updateUnique i c upd [r] = [upd r].
Proof.
  intros Hi Hc. unfold Prisma.updateUnique. cbn [map].
  replace (Prisma.hasKey i c r) with true; [reflexivity|].
  symmetry. apply hasKey_true. split; assumption.
Qed.

Lemma updateUnique_app (upd : CartItem.t -> CartItem.t) (xs ys : list CartItem.t) :
  Prisma.updateUnique i c upd (xs ++ ys)
  = Prisma.updateUnique i c upd xs ++ Prisma.updateUnique i c upd ys.
Proof. unfold Prisma.updateUnique. apply map_app. Qed.
End ItemKey.

Lemma itemsOf_app (c : string) (xs ys : list CartItem.t) :
  Prisma.itemsOf c (xs ++ ys) = Prisma.itemsOf c xs ++ Prisma.itemsOf c ys.
Proof. unfold Prisma.itemsOf. apply filter_app. Qed.

(** ** [addItem] *)

(** First insertion: the key is free, whether or not the cart exists. *)
Lemma addItem_fresh (input : AddToCartInput.t) (s : Store) :
  let c := AddToCartInput.cartId input in
  Prisma.findItem (AddToCartInput.id input) c (cartItemTable s) = None ->
  ∃ s1,
    Builder.addItem input s = Ok (Prisma.loadCart s1 c, s1)
    ∧ c ∈ cartTable s1
    ∧ cartItemTable s1 = cartItemTable s ++ [Prisma.rowOf c (Builder.addItem_item input)].
Proof.
  intros c Hfree. unfold Builder.addItem, Prisma.cart_upsert. fold c.
  destruct (decide (c ∈ cartTable s)) as [Hin|Hout].
  - unfold Prisma.items_upsert, Prisma.items_create. simpl. rewrite Hfree.
    eexists. split; [reflexivity|]. simpl. split; [exact Hin | reflexivity].
  - unfold Prisma.items_create. simpl. rewrite Hfree.
    eexists. split; [reflexivity|]. simpl. split; [set_solver | reflexivity].
Qed.

(** Later insertion: the cart and the row exist; only the quantity moves. *)
Lemma addItem_existing (input : AddToCartInput.t) (s : Store) (r : CartItem.t) :
  let c := AddToCartInput.cartId input in
  let i := AddToCartInput.id input in
  c ∈ cartTable s ->
  Prisma.findItem i c (cartItemTable s) = Some r ->
  ∃ s1,
    Builder.addItem input s = Ok (Prisma.loadCart s1 c, s1)
    ∧ cartTable s1 = cartTable s
    ∧ cartItemTable s1
      = Prisma.updateUnique i c (Prisma.increment (Builder.addItem_quantity input))
          (cartItemTable s).
Proof.
  intros c i Hin Hrow. unfold Builder.addItem, Prisma.cart_upsert. fold c i.
  rewrite decide_True by exact Hin.
  unfold Prisma.items_upsert. rewrite Hrow.
  eexists. split; [reflexivity|]. simpl. split; reflexivity.
Qed.

Lemma addItem_quantity_supplied (input : AddToCartInput.t) :
  Builder.addItem_quantity input = supplied_quantity (AddToCartInput.quantity input).
Proof.
  unfold Builder.addItem_quantity, Builder.input_quantity.
  destruct (AddToCartInput.quantity input); reflexivity.
Qed.

(** C1. Two calls of [addItem] with the same cart id and item id, the item
    not being in the cart before the first: both succeed, and the item's
    row then carries the name, description, image and price of the first
    call and, as quantity, the sum of the quantities the two calls supply,
    each counted as 1 when absent or null.  Nothing else in the item table
    changes. *)
Theorem addItem_twice_accumulates (s : Store) (first second : AddToCartInput.t) :
  AddToCartInput.cartId second = AddToCartInput.cartId first ->
  AddToCartInput.id second = AddToCartInput.id first ->
  Prisma.findItem (AddToCartInput.id first) (AddToCartInput.cartId first)
    (cartItemTable s) = None ->
  let row :=
    {| CartItem.id := AddToCartInput.id first;
       CartItem.cartId := AddToCartInput.cartId first;
       CartItem.name := AddToCartInput.name first;
       CartItem.description := AddToCartInput.description first;
       CartItem.image := AddToCartInput.image first;
       CartItem.price := AddToCartInput.price first;
       CartItem.quantity := supplied_quantity (AddToCartInput.quantity first)
                            + supplied_quantity (AddToCartInput.quantity second) |} in
  ∃ c1 s1 c2 s2,
    Builder.addItem first s = Ok (c1, s1)
    ∧ Builder.addItem second s1 = Ok (c2, s2)
    ∧ cartItemTable s2 = cartItemTable s ++ [row]
    ∧ Prisma.findItem (AddToCartInput.id first) (AddToCartInput.cartId first)
        (cartItemTable s2) = Some row
    ∧ Cart.id c2 = AddToCartInput.cartId first
    ∧ Cart.items c2
      = Prisma.itemsOf (AddToCartInput.cartId first) (cartItemTable s) ++ [row].
Proof.
  intros Hc Hi Hfree row.
  destruct (addItem_fresh first s Hfree) as (s1 & Hrun1 & Hin1 & Hrows1).
  set (c := AddToCartInput.cartId first) in *.
  set (i := AddToCartInput.id first) in *.
  set (row1 := Prisma.rowOf c (Builder.addItem_item first)) in *.
  assert (Hfind1 : Prisma.findItem i c (cartItemTable s1) = Some row1).
  { rewrite Hrows1. apply findItem_snoc_hit; [exact Hfree | reflexivity | reflexivity]. }
  destruct (addItem_existing second s1 row1) as (s2 & Hrun2 & _ & Hrows2).
  { rewrite Hc. exact Hin1. }
  { rewrite Hc, Hi. exact Hfind1. }
  rewrite Hc in Hrun2. rewrite Hc, Hi in Hrows2. fold c i in Hrun2, Hrows2.
  assert (Hrow : Prisma.increment (Builder.addItem_quantity second) row1 = row).
  { unfold row, row1, Prisma.increment, CartItem.with_quantity, Prisma.rowOf. simpl.
    rewrite !addItem_quantity_supplied. reflexivity. }
  assert (Hrows : cartItemTable s2 = cartItemTable s ++ [row]).
  { rewrite Hrows2, Hrows1, updateUnique_app, updateUnique_fresh by exact Hfree.
    rewrite updateUnique_hit by reflexivity. rewrite Hrow. reflexivity. }
  exists (Prisma.loadCart s1 c), s1, (Prisma.loadCart s2 c), s2.
  split; [exact Hrun1|]. split; [exact Hrun2|]. split; [exact Hrows|].
  split; [|split].
  - rewrite Hrows. apply findItem_snoc_hit; [exact Hfree | reflexivity | reflexivity].
  - reflexivity.
  - simpl. rewrite Hrows, itemsOf_app. f_equal.
    unfold Prisma.itemsOf. rewrite filter_cons, decide_True by reflexivity. reflexivity.
Qed.

Lemma addItem_twice_accumulates_witness :
  ∃ c1 s1 c2 s2,
    Builder.addItem (add_mug (Given 2)) empty_store = Ok (c1, s1)
    ∧ Builder.addItem (add_mug_renamed Absent) s1 = Ok (c2, s2)
    ∧ cartItemTable s2 = [mug 3]
    ∧ Cart.items c2 = [mug 3].
Proof.
  destruct (addItem_twice_accumulates empty_store (add_mug (Given 2)) (add_mug_renamed Absent))
    as (c1 & s1 & c2 & s2 & H1 & H2 & Hrows & _ & _ & Hitems);
    [reflexivity | reflexivity | reflexivity |].
  exists c1, s1, c2, s2.
  split; [exact H1|]. split; [exact H2|]. split; [exact Hrows | exact Hitems].
Defined.

(** The scenario of the specification: a mug at 500 added with quantity 2
    gives a sub-total of 1000; added again with quantity 3 (and another
    name and price) it gives quantity 5 and a sub-total of 2500. *)
Example addItem_mug_scenario :
  ∃ c1 s1 c2 s2,
    Builder.addItem (add_mug (Given 2)) empty_store = Ok (c1, s1)
    ∧ Cart.items c1 = [mug 2] ∧ Builder.subTotal c1 = 1000
    ∧ Builder.addItem (add_mug_renamed (Given 3)) s1 = Ok (c2, s2)
    ∧ Cart.items c2 = [mug 5] ∧ Builder.subTotal c2 = 2500
    ∧ Builder.totalItems c2 = 5.
Proof. eexists _, _, _, _. repeat split; reflexivity. Qed.

(** ** [prisma.cart.update] *)

Section CartUpdate.
Variable k : string.
Variable data : Prisma.Nested.
Variable s : Store.

Lemma cart_update_absent :
  k ∉ cartTable s -> Prisma.cart_update k data s = Err RecordNotFound.
Proof. intros H. unfold Prisma.cart_update. rewrite decide_False by exact H. reflexivity. Qed.

Lemma cart_update_present (rows : list CartItem.t) :
  k ∈ cartTable s ->
  data k (cartItemTable s) = Ok rows ->
  Prisma.cart_update k data s
  = Ok (Prisma.loadCart {| cartTable := cartTable s; cartItemTable := rows |} k,
        {| cartTable := cartTable s; cartItemTable := rows |}).
Proof.
  intros H Hd. unfold Prisma.cart_update.
  rewrite decide_True by exact H. rewrite Hd. reflexivity.
Qed.
End CartUpdate.

Lemma lookup_map {A B : Type} (g : A -> B) (l : list A) (n : nat) :
  map g l !! n = g <$> (l !! n).
Proof.
  revert n. induction l as [|x l IH]; intros [|n]; simpl; try reflexivity. apply IH.
Qed.

Lemma with_quantity_same (r : CartItem.t) :
  CartItem.with_quantity (CartItem.quantity r) r = r.
Proof. destruct r; reflexivity. Qed.

Lemma with_quantity_twice (q q' : Z) (r : CartItem.t) :
  CartItem.with_quantity q (CartItem.with_quantity q' r) = CartItem.with_quantity q r.
Proof. reflexivity. Qed.

(** ** [decreaseCartItem] *)

(** One call: every row stays where it is; its quantity is untouched, or it
    was at least 1 and is now one less. *)
Lemma decreaseCartItem_step (input : DecreaseCartItemInput.t) (s : Store)
    (n : nat) (r : CartItem.t) :
  cartItemTable s !! n = Some r ->
  ∃ q,
    cartItemTable (store_after (Builder.decreaseCartItem input s) s) !! n
    = Some (CartItem.with_quantity q r)
    ∧ (q = CartItem.quantity r ∨ (1 ≤ CartItem.quantity r ∧ q = CartItem.quantity r - 1)).
Proof.
  intros Hr. unfold Builder.decreaseCartItem.
  destruct (decide (DecreaseCartItemInput.id input ∈ cartTable s)) as [Hin|Hout].
  - erewrite cart_update_present by (try exact Hin; reflexivity).
    simpl. rewrite lookup_map, Hr. simpl.
    destruct (bool_decide (CartItem.cartId r = DecreaseCartItemInput.id input)); simpl;
      [|exists (CartItem.quantity r); rewrite with_quantity_same; auto].
    destruct (bool_decide (CartItem.id r = DecreaseCartItemInput.id input)); simpl;
      [|exists (CartItem.quantity r); rewrite with_quantity_same; auto].
    destruct (bool_decide (1 ≤ CartItem.quantity r)) eqn:Hq; simpl;
      [|exists (CartItem.quantity r); rewrite with_quantity_same; auto].
    apply bool_decide_eq_true in Hq.
    exists (CartItem.quantity r - 1). split; [reflexivity | right; split; [exact Hq | reflexivity]].
  - rewrite cart_update_absent by exact Hout. simpl.
    exists (CartItem.quantity r). rewrite with_quantity_same. auto.
Qed.

Lemma decreaseCartItem_length (input : DecreaseCartItemInput.t) (s : Store) :
  length (cartItemTable (store_after (Builder.decreaseCartItem input s) s))
  = length (cartItemTable s).
Proof.
  unfold Builder.decreaseCartItem.
  destruct (decide (DecreaseCartItemInput.id input ∈ cartTable s)) as [Hin|Hout].
  - erewrite cart_update_present by (try exact Hin; reflexivity).
    simpl. apply length_map.
  - rewrite cart_update_absent by exact Hout. reflexivity.
Qed.

Lemma decrease_calls_cons (input : DecreaseCartItemInput.t)
    (inputs : list DecreaseCartItemInput.t) (s : Store) :
  decrease_calls (input :: inputs) s
  = decrease_calls inputs (store_after (Builder.decreaseCartItem input s) s).
Proof. reflexivity. Qed.

(** C3. After any run of [decreaseCartItem] calls, whatever their inputs,
    every item row is still in the table, with all fields but the quantity
    as before; a quantity that was not negative is still not negative and
    has not grown, and a quantity of 0 is still 0.  No row is added or
    deleted. *)
Theorem decreaseCartItem_never_negative
    (inputs : list DecreaseCartItemInput.t) (s : Store) (n : nat) (r : CartItem.t) :
  cartItemTable s !! n = Some r ->
  0 ≤ CartItem.quantity r ->
  length (cartItemTable (decrease_calls inputs s)) = length (cartItemTable s)
  ∧ ∃ q,
      cartItemTable (decrease_calls inputs s) !! n = Some (CartItem.with_quantity q r)
      ∧ 0 ≤ q ≤ CartItem.quantity r
      ∧ (CartItem.quantity r = 0 -> q = 0).
Proof.
  revert s r. induction inputs as [|input inputs IH]; intros s r Hr Hq.
  - split; [reflexivity|]. exists (CartItem.quantity r).
    simpl. rewrite with_quantity_same. split; [exact Hr|]. split; [lia | auto].
  - rewrite decrease_calls_cons.
    destruct (decreaseCartItem_step input s n r Hr) as (q1 & Hr1 & Hq1).
    assert (Hq1' : 0 ≤ q1 ≤ CartItem.quantity r) by lia.
    destruct (IH _ _ Hr1) as (Hlen & q & Hfinal & Hrange & _); [simpl; lia|].
    simpl in Hrange. split.
    + rewrite Hlen. apply decreaseCartItem_length.
    + exists q. rewrite Hfinal, with_quantity_twice.
      split; [reflexivity|]. split; lia.
Qed.

Lemma decreaseCartItem_never_negative_witness :
  ∃ q,
    cartItemTable (decrease_calls [decrease_box; decrease_box; decrease_mug] store_box) !! 0%nat
    = Some (CartItem.with_quantity q (box 1))
    ∧ 0 ≤ q ≤ 1.
Proof.
  destruct (decreaseCartItem_never_negative
              [decrease_box; decrease_box; decrease_mug] store_box 0%nat (box 1))
    as (_ & q & Hrow & Hrange & _); [reflexivity | simpl; lia |].
  exists q. split; [exact Hrow | exact Hrange].
Defined.

(** The scenario of the specification: an item at quantity 1, decreased
    twice, ends at 0. *)
Example decrease_twice_stays_zero :
  cartItemTable (decrease_calls [decrease_box; decrease_box] store_box) = [box 0; mug 2].
Proof. reflexivity. Qed.

(** ** [removeItem] *)

(** The rows left by [deleteMany: { id: i }] under parent cart [c]. *)
Lemma deleteMany_rows (i c : string) (rows : list CartItem.t) :
  let rows' :=
    List.filter (fun r => negb (bool_decide (CartItem.cartId r = c)
                                && bool_decide (CartItem.id r = i))) rows in
  (∀ r, r ∈ rows' <-> r ∈ rows ∧ ¬ (CartItem.id r = i ∧ CartItem.cartId r = c))
  ∧ Prisma.findItem i c rows' = None
  ∧ (Prisma.findItem i c rows = None -> rows' = rows).
Proof.
  intros rows'.
  assert (Hkeep : ∀ r,
    negb (bool_decide (CartItem.cartId r = c) && bool_decide (CartItem.id r = i)) = true
    <-> ¬ (CartItem.id r = i ∧ CartItem.cartId r = c)).
  { intros r. rewrite negb_true_iff, andb_false_iff, !bool_decide_eq_false.
    split; [tauto|]. intros Hn.
    destruct (decide (CartItem.cartId r = c)); [right|left]; tauto. }
  split; [|split].
  - intros r. subst rows'. rewrite !list_elem_of_In, filter_In, Hkeep. reflexivity.
  - apply findItem_None_all, Forall_forall. intros r Hr.
    subst rows'. apply list_elem_of_In, filter_In in Hr as [_ Hr].
    apply Hkeep in Hr. apply not_true_is_false. intros Hhit. apply Hr.
    apply hasKey_true, Hhit.
  - intros Hfree. apply findItem_None_all in Hfree. subst rows'.
    induction Hfree as [|r rs Hr _ IH]; [reflexivity|]. simpl.
    replace (negb (bool_decide (CartItem.cartId r = c) && bool_decide (CartItem.id r = i)))
      with true; [rewrite IH; reflexivity|].
    symmetry. apply Hkeep. intros Hkey.
    apply hasKey_true in Hkey. congruence.
Qed.

(** What the resolver does for every input, in terms of the cart its
    [where] clause selects. *)
Lemma removeItem_runs (input : RemoveFromCartInput.t) (s : Store) :
  let k := RemoveFromCartInput.id input in
  let s' :=
    {| cartTable := cartTable s;
       cartItemTable :=
         List.filter (fun r => negb (bool_decide (CartItem.cartId r = k)
                                     && bool_decide (CartItem.id r = k)))
           (cartItemTable s) |} in
  (k ∉ cartTable s -> Builder.removeItem input s = Err RecordNotFound)
  ∧ (k ∈ cartTable s -> Builder.removeItem input s = Ok (Prisma.loadCart s' k, s')).
Proof.
  intros k s'. unfold Builder.removeItem. fold k. split; intros Hk.
  - apply cart_update_absent, Hk.
  - erewrite cart_update_present by (try exact Hk; reflexivity). reflexivity.
Qed.

(** C5, as stated, fails: on a store without carts [removeItem] is rejected
    with record-not-found instead of returning a cart. *)
Lemma removeItem_absent_cart_rejected :
  Builder.removeItem remove_mug empty_store = Err RecordNotFound
  ∧ Builder.removeItem remove_box empty_store = Err RecordNotFound
  ∧ ¬ (∃ cart s', Builder.removeItem remove_mug empty_store = Ok (cart, s')).
Proof.
  assert (H : Builder.removeItem remove_mug empty_store = Err RecordNotFound)
    by reflexivity.
  split; [exact H|]. split; [reflexivity|].
  intros (cart & s' & Hok). rewrite H in Hok. discriminate.
Qed.

(** C5, amended.  For an input whose item id is also the id of the cart, so
    that the cart the resolver looks up is the one named by [cartId]: when
    the cart record exists, [removeItem] deletes the row with that key and
    nothing else, and returns the cart as it then is; when the item is not
    in the cart the store is unchanged and no error is raised; when the
    cart record does not exist the call is rejected with record-not-found. *)
Theorem removeItem_deletes_or_rejects (input : RemoveFromCartInput.t) (s : Store) :
  RemoveFromCartInput.id input = RemoveFromCartInput.cartId input ->
  let c := RemoveFromCartInput.cartId input in
  let i := RemoveFromCartInput.id input in
  (c ∉ cartTable s -> Builder.removeItem input s = Err RecordNotFound)
  ∧ (c ∈ cartTable s ->
     ∃ cart s',
       Builder.removeItem input s = Ok (cart, s')
       ∧ cartTable s' = cartTable s
       ∧ (∀ r, r ∈ cartItemTable s'
               <-> r ∈ cartItemTable s ∧ ¬ (CartItem.id r = i ∧ CartItem.cartId r = c))
       ∧ Prisma.findItem i c (cartItemTable s') = None
       ∧ Prisma.cart_findUnique c s' = Some cart
       ∧ (Prisma.findItem i c (cartItemTable s) = None -> s' = s)).
Proof.
  intros Hkey c i. subst c i.
  destruct (removeItem_runs input s) as [Habsent Hpresent].
  rewrite Hkey in *.
  set (c := RemoveFromCartInput.cartId input) in *.
  split; [exact Habsent|]. intros Hin.
  destruct (deleteMany_rows c c (cartItemTable s)) as (Hmem & Hgone & Hnoop).
  eexists _, _. split; [apply Hpresent, Hin|]. simpl.
  split; [reflexivity|]. split; [exact Hmem|]. split; [exact Hgone|]. split.
  - unfold Prisma.cart_findUnique. simpl. rewrite decide_True by exact Hin. reflexivity.
  - intros Hfree. rewrite (Hnoop Hfree). destruct s; reflexivity.
Qed.

Lemma removeItem_deletes_or_rejects_witness :
  (∃ cart s',
     Builder.removeItem remove_box store_box = Ok (cart, s')
     ∧ Prisma.findItem "c1" "c1" (cartItemTable s') = None
     ∧ Prisma.cart_findUnique "c1" s' = Some cart)
  ∧ Builder.removeItem remove_box empty_store = Err RecordNotFound.
Proof.
  split.
  - destruct (removeItem_deletes_or_rejects remove_box store_box) as [_ Hpresent];
      [reflexivity|].
    destruct Hpresent as (cart & s' & Hrun & _ & _ & Hgone & Hcart & _);
      [vm_compute; reflexivity|].
    exists cart, s'. split; [exact Hrun|]. split; [exact Hgone | exact Hcart].
  - apply (removeItem_deletes_or_rejects remove_box empty_store); [reflexivity|].
    vm_compute. discriminate.
Defined.

(** ** [increaseCartItem] *)

(** What the resolver does for every input, in terms of the cart its
    [where] clause selects. *)
Lemma increaseCartItem_runs (input : IncreaseCartItemInput.t) (s : Store) :
  let k := IncreaseCartItemInput.id input in
  let s' :=
    {| cartTable := cartTable s;
       cartItemTable :=
         map (fun r => if bool_decide (CartItem.cartId r = k) && bool_decide (CartItem.id r = k)
                       then Prisma.increment 1 r else r)
           (cartItemTable s) |} in
  (k ∉ cartTable s -> Builder.increaseCartItem input s = Err RecordNotFound)
  ∧ (k ∈ cartTable s -> Builder.increaseCartItem input s = Ok (Prisma.loadCart s' k, s')).
Proof.
  intros k s'. unfold Builder.increaseCartItem. fold k. split; intros Hk.
  - apply cart_update_absent, Hk.
  - erewrite cart_update_present by (try exact Hk; reflexivity). reflexivity.
Qed.

(** C6. On cart "c1" holding a mug (item "i1") of quantity 2,
    [increaseCartItem] with [cartId = "c1"] and [id = "i1"] looks up the
    cart whose id is "i1": without such a cart the call is rejected with
    record-not-found, and with such a cart it returns that other cart;
    either way the mug's quantity stays 2 instead of becoming 3.  On cart
    "c1" without items the same call is rejected too, instead of leaving
    the cart as it is without an error. *)
Theorem increaseCartItem_looks_up_item_id :
  Builder.increaseCartItem increase_mug store_c1 = Err RecordNotFound
  ∧ Builder.increaseCartItem increase_mug store_c1_empty = Err RecordNotFound
  ∧ Builder.increaseCartItem increase_mug store_c1_i1
    = Ok ({| Cart.id := "i1"; Cart.items := [] |}, store_c1_i1)
  ∧ Prisma.findItem "i1" "c1"
      (cartItemTable (store_after (Builder.increaseCartItem increase_mug store_c1) store_c1))
    = Some (mug 2)
  ∧ Prisma.findItem "i1" "c1"
      (cartItemTable (store_after (Builder.increaseCartItem increase_mug store_c1_i1)
                        store_c1_i1))
    = Some (mug 2).
Proof. repeat split; reflexivity. Qed.

(** ** Referential integrity is an invariant of the mutations *)

Section ForeignKeys.
Lemma keeps_keys_noItems : keeps_keys Prisma.noItems.
Proof. intros T parent rows rows' _ Hrows [= <-]. exact Hrows. Qed.

Lemma keeps_keys_create (d : Prisma.ItemCreate) : keeps_keys (Prisma.items_create d).
Proof.
  intros T parent rows rows' Hp Hrows. unfold Prisma.items_create.
  destruct (Prisma.findItem _ _ _); [discriminate|]. intros [= <-].
  apply Forall_app. split; [exact Hrows|]. constructor; [exact Hp | constructor].
Qed.

Lemma Forall_map_same_cart (T : gset string) (g : CartItem.t -> CartItem.t)
    (rows : list CartItem.t) :
  (∀ r, CartItem.cartId (g r) = CartItem.cartId r) ->
  Forall (fun r => CartItem.cartId r ∈ T) rows ->
  Forall (fun r => CartItem.cartId r ∈ T) (map g rows).
Proof.
  intros Hg. induction 1 as [|r rows Hr _ IH]; simpl; constructor.
  - rewrite Hg. exact Hr.
  - exact IH.
Qed.

Lemma keeps_keys_upsert (i c : string) (d : Prisma.ItemCreate) (n : Z) :
  keeps_keys (Prisma.items_upsert i c d (Prisma.increment n)).
Proof.
  intros T parent rows rows' Hp Hrows. unfold Prisma.items_upsert.
  destruct (Prisma.findItem i c rows).
  - intros [= <-]. apply Forall_map_same_cart; [|exact Hrows].
    intros r. destruct (Prisma.hasKey i c r); reflexivity.
  - apply keeps_keys_create; assumption.
Qed.

Lemma keeps_keys_updateMany (where_ : CartItem.t -> bool) (upd : CartItem.t -> CartItem.t) :
  (∀ r, CartItem.cartId (upd r) = CartItem.cartId r) ->
  keeps_keys (Prisma.items_updateMany where_ upd).
Proof.
  intros Hupd T parent rows rows' _ Hrows [= <-].
  apply Forall_map_same_cart; [|exact Hrows].
  intros r. destruct (_ && _); [apply Hupd | reflexivity].
Qed.

Lemma keeps_keys_deleteMany (where_ : CartItem.t -> bool) :
  keeps_keys (Prisma.items_deleteMany where_).
Proof.
  intros T parent rows rows' _ Hrows [= <-].
  rewrite Forall_forall in *. intros r Hr.
  apply Hrows. apply list_elem_of_In. apply list_elem_of_In, filter_In in Hr. tauto.
Qed.

Lemma foreign_keys_cart_upsert (c : string) (onCreate onUpdate : Prisma.Nested)
    (s s' : Store) (cart : Cart.t) :
  keeps_keys onCreate -> keeps_keys onUpdate ->
  foreign_keys s ->
  Prisma.cart_upsert c onCreate onUpdate s = Ok (cart, s') ->
  foreign_keys s'.
Proof.
  intros Hcreate Hupdate Hfk. unfold Prisma.cart_upsert, foreign_keys in *.
  destruct (decide (c ∈ cartTable s)) as [Hin|Hout].
  - destruct (onUpdate c (cartItemTable s)) as [rows|e] eqn:Hop; [|discriminate].
    intros [= _ <-]. simpl. eapply Hupdate; eassumption.
  - destruct (onCreate c (cartItemTable s)) as [rows|e] eqn:Hop; [|discriminate].
    intros [= _ <-]. simpl. eapply Hcreate; [| |exact Hop]; [set_solver|].
    eapply Forall_impl; [exact Hfk|]. intros r Hr. simpl in Hr. set_solver.
Qed.

Lemma foreign_keys_cart_update (k : string) (data : Prisma.Nested)
    (s s' : Store) (cart : Cart.t) :
  keeps_keys data ->
  foreign_keys s ->
  Prisma.cart_update k data s = Ok (cart, s') ->
  foreign_keys s'.
Proof.
  intros Hdata Hfk. unfold Prisma.cart_update, foreign_keys in *.
  destruct (decide (k ∈ cartTable s)) as [Hin|Hout]; [|discriminate].
  destruct (data k (cartItemTable s)) as [rows|e] eqn:Hop; [|discriminate].
  intros [= _ <-]. simpl. eapply Hdata; eassumption.
Qed.
End ForeignKeys.

Lemma reachable_foreign_keys (s : Store) : reachable s -> foreign_keys s.
Proof.
  induction 1 as [|id s c s' _ IH Hrun|input s c s' _ IH Hrun|input s c s' _ IH Hrun
                  |input s c s' _ IH Hrun|input s c s' _ IH Hrun].
  - constructor.
  - eapply foreign_keys_cart_upsert; [| |exact IH|exact Hrun]; apply keeps_keys_noItems.
  - eapply foreign_keys_cart_upsert; [| |exact IH|exact Hrun].
    + apply keeps_keys_create.
    + apply keeps_keys_upsert.
  - eapply foreign_keys_cart_update; [|exact IH|exact Hrun]. apply keeps_keys_deleteMany.
  - eapply foreign_keys_cart_update; [|exact IH|exact Hrun].
    apply keeps_keys_updateMany. reflexivity.
  - eapply foreign_keys_cart_update; [|exact IH|exact Hrun].
    apply keeps_keys_updateMany. reflexivity.
Qed.

(** The cart with a mug of quantity 2 and a pen of quantity 0 is what two
    calls of [addItem] on the empty store return. *)
Example cart_mug_pen0_reached :
  ∃ c1 s1 s2,
    Builder.addItem (add_mug (Given 2)) empty_store = Ok (c1, s1)
    ∧ Builder.addItem add_pen0 s1 = Ok (cart_mug_pen0, s2).
Proof. eexists _, _, _. split; reflexivity. Qed.

(** ** Totals of a cart and of its lines *)

Lemma sum_over_ext (f g : CartItem.t -> Z) (items : list CartItem.t) :
  (∀ item, f item = g item) -> sum_over f items = sum_over g items.
Proof.
  intros Hfg. induction items as [|x xs IH]; simpl; [reflexivity|].
  rewrite Hfg, IH. reflexivity.
Qed.

Lemma sum_over_app (f : CartItem.t -> Z) (xs ys : list CartItem.t) :
  sum_over f (xs ++ ys) = sum_over f xs + sum_over f ys.
Proof. induction xs as [|x xs IH]; simpl; [reflexivity|]. rewrite IH. lia. Qed.

Lemma sum_over_perm (f : CartItem.t -> Z) (xs ys : list CartItem.t) :
  xs ≡ₚ ys -> sum_over f xs = sum_over f ys.
Proof.
  induction 1 as [|x xs ys _ IH|x y xs|xs ys zs _ IH1 _ IH2]; simpl.
  - reflexivity.
  - rewrite IH. reflexivity.
  - lia.
  - rewrite IH1. exact IH2.
Qed.

Lemma exact_amounts_perm (xs ys : list CartItem.t) :
  xs ≡ₚ ys -> exact_amounts xs -> exact_amounts ys.
Proof.
  unfold exact_amounts. intros Hperm. rewrite (sum_over_perm _ xs ys Hperm). auto.
Qed.

(** X2. As long as the line amounts stay where doubles are exact, the
    sub-total does not depend on the order in which the store returns the
    items of the cart. *)
Theorem subTotal_order_independent (c c' : string) (items items' : list CartItem.t) :
  items ≡ₚ items' ->
  exact_amounts items ->
  Builder.subTotal {| Cart.id := c; Cart.items := items |}
  = Builder.subTotal {| Cart.id := c'; Cart.items := items' |}
  ∧ Resolvers.subTotal_amount items = Resolvers.subTotal_amount items'.
Proof.
  intros Hperm Hexact.
  destruct (subTotal_exact c items Hexact) as [-> ->].
  destruct (subTotal_exact c' items' (exact_amounts_perm _ _ Hperm Hexact)) as [-> ->].
  unfold subTotal_spec. split; apply sum_over_perm, Hperm.
Qed.

Lemma subTotal_order_independent_witness :
  Builder.subTotal {| Cart.id := "c1"; Cart.items := [mug 2; pen 3] |}
  = Builder.subTotal {| Cart.id := "c1"; Cart.items := [pen 3; mug 2] |}.
Proof.
  apply (subTotal_order_independent "c1" "c1" [mug 2; pen 3] [pen 3; mug 2]).
  - apply perm_swap.
  - vm_compute. reflexivity.
Defined.



(** ** [addItem] on an arbitrary store *)

Lemma findItem_updateUnique (i c : string) (n : Z) (rows : list CartItem.t) :
  Prisma.findItem i c (Prisma.updateUnique i c (Prisma.increment n) rows)
  = Prisma.increment n <$> Prisma.findItem i c rows.
Proof.
  induction rows as [|r rows IH]; [reflexivity|].
  unfold Prisma.updateUnique. cbn [map]. fold (Prisma.updateUnique i c (Prisma.increment n) rows).
  destruct (Prisma.hasKey i c r) eqn:Hr.
  - rewrite !findItem_cons.
    change (Prisma.hasKey i c (Prisma.increment n r)) with (Prisma.hasKey i c r).
    rewrite Hr. reflexivity.
  - rewrite !findItem_cons, Hr. exact IH.
Qed.

Lemma itemsOf_updateUnique_other (i c c' : string) (upd : CartItem.t -> CartItem.t)
    (rows : list CartItem.t) :
  c' ≠ c ->
  (∀ r, CartItem.cartId (upd r) = CartItem.cartId r) ->
  Prisma.itemsOf c' (Prisma.updateUnique i c upd rows) = Prisma.itemsOf c' rows.
Proof.
  intros Hne Hupd. unfold Prisma.itemsOf, Prisma.updateUnique.
  induction rows as [|r rows IH]; [reflexivity|]. cbn [map].
  rewrite !filter_cons, IH. destruct (Prisma.hasKey i c r) eqn:Hr; [|reflexivity].
  apply hasKey_true in Hr as [_ Hc].
  rewrite (decide_False (P := CartItem.cartId (upd r) = c')) by (rewrite Hupd; congruence).
  rewrite (decide_False (P := CartItem.cartId r = c')) by congruence.
  reflexivity.
Qed.

Lemma elem_of_itemsOf (c : string) (rows : list CartItem.t) (r : CartItem.t) :
  r ∈ Prisma.itemsOf c rows <-> CartItem.cartId r = c ∧ r ∈ rows.
Proof. unfold Prisma.itemsOf. rewrite list_elem_of_filter. reflexivity. Qed.

(** Every outcome of [addItem], in terms of the store before the call. *)
Lemma addItem_cases (input : AddToCartInput.t) (s : Store) :
  let c := AddToCartInput.cartId input in
  let i := AddToCartInput.id input in
  match Builder.addItem input s with
  | Ok (cart, s') =>
      cart = Prisma.loadCart s' c
      ∧ cartTable s' = {[ c ]} ∪ cartTable s
      ∧ cartItemTable s'
        = match Prisma.findItem i c (cartItemTable s) with
          | Some _ =>
              Prisma.updateUnique i c (Prisma.increment (Builder.addItem_quantity input))
                (cartItemTable s)
          | None => cartItemTable s ++ [Prisma.rowOf c (Builder.addItem_item input)]
          end
  | Err e =>
      e = UniqueConstraint
      ∧ (c ∉ cartTable s)
      ∧ (Prisma.findItem i c (cartItemTable s) ≠ None)
  end.
Proof.
  intros c i. unfold Builder.addItem, Prisma.cart_upsert. fold c i.
  destruct (decide (c ∈ cartTable s)) as [Hin|Hout].
  - unfold Prisma.items_upsert, Prisma.items_create. simpl. fold i.
    assert (Hsame : cartTable s = {[ c ]} ∪ cartTable s)
      by (apply leibniz_equiv; symmetry; apply subseteq_union_1, singleton_subseteq_l, Hin).
    destruct (Prisma.findItem i c (cartItemTable s)) eqn:Hfind; simpl;
      (split; [reflexivity|]; split; [exact Hsame | reflexivity]).
  - unfold Prisma.items_create. simpl. fold i.
    destruct (Prisma.findItem i c (cartItemTable s)) eqn:Hfind; simpl.
    + split; [reflexivity|]. split; [exact Hout | discriminate].
    + split; [reflexivity|]. split; reflexivity.
Qed.

(** X4. On a store with referential integrity [addItem] never fails: it
    returns a cart whose id is the input's [cartId], and that cart is in
    the store afterwards. *)
Theorem addItem_succeeds (input : AddToCartInput.t) (s : Store) :
  foreign_keys s ->
  ∃ cart s',
    Builder.addItem input s = Ok (cart, s')
    ∧ Cart.id cart = AddToCartInput.cartId input
    ∧ Prisma.cart_findUnique (AddToCartInput.cartId input) s' = Some cart
    ∧ foreign_keys s'.
Proof.
  intros Hfk. pose proof (addItem_cases input s) as Hcases. simpl in Hcases.
  destruct (Builder.addItem input s) as [[cart s']|e] eqn:Hrun.
  - destruct Hcases as (-> & Hcarts & _).
    exists (Prisma.loadCart s' (AddToCartInput.cartId input)), s'.
    split; [reflexivity|]. split; [reflexivity|]. split.
    + unfold Prisma.cart_findUnique. rewrite decide_True; [reflexivity|].
      rewrite Hcarts. apply elem_of_union_l, elem_of_singleton. reflexivity.
    + eapply foreign_keys_cart_upsert; [| |exact Hfk|exact Hrun].
      * apply keeps_keys_create.
      * apply keeps_keys_upsert.
  - exfalso. destruct Hcases as (_ & Hout & Hfound).
    destruct (Prisma.findItem _ _ _) as [r|] eqn:Hfind; [|congruence].
    apply findItem_Some_key in Hfind as (_ & Hc & Hr).
    unfold foreign_keys in Hfk. rewrite Forall_forall in Hfk.
    apply Hfk in Hr. rewrite Hc in Hr. contradiction.
Qed.

Lemma addItem_succeeds_witness :
  ∃ cart s',
    Builder.addItem (add_mug Null) store_c1_i1 = Ok (cart, s')
    ∧ Cart.id cart = "c1"%string.
Proof.
  destruct (addItem_succeeds (add_mug Null) store_c1_i1) as (cart & s' & Hrun & Hid & _).
  - unfold foreign_keys. simpl. constructor; [vm_compute; reflexivity | constructor].
  - exists cart, s'. split; [exact Hrun | exact Hid].
Defined.

(** X5. After a successful [addItem] the row with the input's key is found
    in the store and in the returned cart.  If a row with that key was there
    before, it is that row with the effective quantity added and nothing
    else changed; otherwise it carries the input's fields and the effective
    quantity. *)
Theorem addItem_then_lookup (input : AddToCartInput.t) (s s' : Store) (cart : Cart.t) :
  Builder.addItem input s = Ok (cart, s') ->
  let c := AddToCartInput.cartId input in
  let i := AddToCartInput.id input in
  let q := Builder.addItem_quantity input in
  ∃ r,
    Prisma.findItem i c (cartItemTable s') = Some r
    ∧ r ∈ Cart.items cart
    ∧ r = match Prisma.findItem i c (cartItemTable s) with
          | Some old => CartItem.with_quantity (CartItem.quantity old + q) old
          | None =>
              {| CartItem.id := i; CartItem.cartId := c;
                 CartItem.name := AddToCartInput.name input;
                 CartItem.description := AddToCartInput.description input;
                 CartItem.image := AddToCartInput.image input;
                 CartItem.price := AddToCartInput.price input;
                 CartItem.quantity := q |}
          end.
Proof.
  intros Hrun c i q. pose proof (addItem_cases input s) as Hcases.
  rewrite Hrun in Hcases. simpl in Hcases. fold c i q in Hcases.
  destruct Hcases as (-> & _ & Hrows).
  assert (Hfound : ∃ r, Prisma.findItem i c (cartItemTable s') = Some r
    ∧ r = match Prisma.findItem i c (cartItemTable s) with
          | Some old => CartItem.with_quantity (CartItem.quantity old + q) old
          | None => Prisma.rowOf c (Builder.addItem_item input)
          end).
  { rewrite Hrows. destruct (Prisma.findItem i c (cartItemTable s)) as [old|] eqn:Hfind.
    - exists (Prisma.increment q old). rewrite findItem_updateUnique, Hfind.
      split; reflexivity.
    - eexists. split; [|reflexivity].
      apply findItem_snoc_hit; [exact Hfind | reflexivity | reflexivity]. }
  destruct Hfound as (r & Hr & Hshape). exists r.
  split; [exact Hr|]. split.
  - apply findItem_Some_key in Hr as (_ & Hc & Hin).
    simpl. apply elem_of_itemsOf. split; assumption.
  - rewrite Hshape. destruct (Prisma.findItem i c (cartItemTable s)); reflexivity.
Qed.

Lemma addItem_then_lookup_witness :
  ∃ r,
    Prisma.findItem "i1" "c1"
      (cartItemTable (store_after (Builder.addItem (add_mug_renamed (Given 4)) store_c1)
                        store_c1))
    = Some r
    ∧ r = mug 6.
Proof.
  destruct (addItem_then_lookup (add_mug_renamed (Given 4)) store_c1
              (store_after (Builder.addItem (add_mug_renamed (Given 4)) store_c1) store_c1)
              {| Cart.id := "c1"; Cart.items := [mug 6] |})
    as (r & Hfind & _ & Hshape); [reflexivity|].
  exists r. split; [exact Hfind | exact Hshape].
Defined.

(** X6. A successful [addItem] leaves every other cart as it was: a cart
    with another id reads back exactly as before the call, and the only
    cart that can be new is the input's. *)
Theorem addItem_other_carts (input : AddToCartInput.t) (s s' : Store) (cart : Cart.t)
    (c' : string) :
  Builder.addItem input s = Ok (cart, s') ->
  c' ≠ AddToCartInput.cartId input ->
  Prisma.cart_findUnique c' s' = Prisma.cart_findUnique c' s
  ∧ cartTable s' = {[ AddToCartInput.cartId input ]} ∪ cartTable s.
Proof.
  intros Hrun Hne. pose proof (addItem_cases input s) as Hcases.
  rewrite Hrun in Hcases. simpl in Hcases. destruct Hcases as (_ & Hcarts & Hrows).
  split; [|exact Hcarts].
  assert (Hitems : Prisma.itemsOf c' (cartItemTable s') = Prisma.itemsOf c' (cartItemTable s)).
  { rewrite Hrows. destruct (Prisma.findItem _ _ _).
    - apply itemsOf_updateUnique_other; [exact Hne | reflexivity].
    - rewrite itemsOf_app. unfold Prisma.itemsOf at 2.
      rewrite filter_cons, decide_False by (simpl; congruence).
      rewrite filter_nil. apply app_nil_r. }
  unfold Prisma.cart_findUnique, Prisma.loadCart. rewrite Hitems.
  assert (Hmem : c' ∈ cartTable s' <-> c' ∈ cartTable s).
  { rewrite Hcarts, elem_of_union, elem_of_singleton. tauto. }
  destruct (decide (c' ∈ cartTable s)) as [Hin|Hout].
  - rewrite decide_True by (apply Hmem, Hin). reflexivity.
  - rewrite decide_False by (rewrite Hmem; exact Hout). reflexivity.
Qed.

Lemma addItem_other_carts_witness :
  Prisma.cart_findUnique "c1"
    (store_after (Builder.addItem
                    {| AddToCartInput.cartId := "c2"; AddToCartInput.id := "i1";
                       AddToCartInput.name := "Mug"; AddToCartInput.description := None;
                       AddToCartInput.image := None; AddToCartInput.price := 500;
                       AddToCartInput.quantity := Absent |} store_c1) store_c1)
  = Prisma.cart_findUnique "c1" store_c1.
Proof.
  eapply (addItem_other_carts
            {| AddToCartInput.cartId := "c2"; AddToCartInput.id := "i1";
               AddToCartInput.name := "Mug"; AddToCartInput.description := None;
               AddToCartInput.image := None; AddToCartInput.price := 500;
               AddToCartInput.quantity := Absent |} store_c1 _ _ "c1").
  - reflexivity.
  - simpl. discriminate.
Defined.

(** ** [removeItem], [increaseCartItem], [decreaseCartItem] on an arbitrary store *)

Lemma store_eta (s : Store) (rows : list CartItem.t) :
  rows = cartItemTable s -> {| cartTable := cartTable s; cartItemTable := rows |} = s.
Proof. intros ->. destruct s; reflexivity. Qed.

Lemma map_fixed {A : Type} (g : A -> A) (P : A -> Prop) (l : list A) :
  (∀ x, P x -> g x = x) -> Forall P l -> map g l = l.
Proof.
  intros Hg. induction 1 as [|x l Hx _ IH]; simpl; [reflexivity|].
  rewrite Hg, IH by exact Hx. reflexivity.
Qed.

Lemma filter_twice {A : Type} (p : A -> bool) (l : list A) :
  List.filter p (List.filter p l) = List.filter p l.
Proof.
  induction l as [|x l IH]; simpl; [reflexivity|].
  destruct (p x) eqn:Hx; simpl; [rewrite Hx, IH; reflexivity | exact IH].
Qed.

Lemma after_removeItem_eq (input : RemoveFromCartInput.t) (s : Store) :
  let k := RemoveFromCartInput.id input in
  after_removeItem input s
  = {| cartTable := cartTable s;
       cartItemTable :=
         if decide (k ∈ cartTable s)
         then List.filter (fun r => negb (bool_decide (CartItem.cartId r = k)
                                          && bool_decide (CartItem.id r = k)))
                (cartItemTable s)
         else cartItemTable s |}.
Proof.
  intros k. unfold after_removeItem.
  destruct (removeItem_runs input s) as [Habsent Hpresent]. fold k in Habsent, Hpresent.
  destruct (decide (k ∈ cartTable s)) as [Hin|Hout].
  - rewrite (Hpresent Hin). reflexivity.
  - rewrite (Habsent Hout). simpl. symmetry. apply store_eta. reflexivity.
Qed.

Lemma after_increaseCartItem_eq (input : IncreaseCartItemInput.t) (s : Store) :
  let k := IncreaseCartItemInput.id input in
  after_increaseCartItem input s
  = {| cartTable := cartTable s;
       cartItemTable :=
         if decide (k ∈ cartTable s) then map (increased k) (cartItemTable s)
         else cartItemTable s |}.
Proof.
  intros k. unfold after_increaseCartItem.
  destruct (increaseCartItem_runs input s) as [Habsent Hpresent]. fold k in Habsent, Hpresent.
  destruct (decide (k ∈ cartTable s)) as [Hin|Hout].
  - rewrite (Hpresent Hin). reflexivity.
  - rewrite (Habsent Hout). simpl. symmetry. apply store_eta. reflexivity.
Qed.

Lemma after_decreaseCartItem_eq (input : DecreaseCartItemInput.t) (s : Store) :
  let k := DecreaseCartItemInput.id input in
  after_decreaseCartItem input s
  = {| cartTable := cartTable s;
       cartItemTable :=
         if decide (k ∈ cartTable s) then map (decreased k) (cartItemTable s)
         else cartItemTable s |}.
Proof.
  intros k. unfold after_decreaseCartItem, Builder.decreaseCartItem. fold k.
  destruct (decide (k ∈ cartTable s)) as [Hin|Hout].
  - erewrite cart_update_present by (try exact Hin; reflexivity). reflexivity.
  - rewrite cart_update_absent by exact Hout. simpl. symmetry. apply store_eta. reflexivity.
Qed.

Lemma itemsOf_map_other (k c' : string) (g : CartItem.t -> CartItem.t)
    (rows : list CartItem.t) :
  c' ≠ k ->
  (∀ r, CartItem.cartId (g r) = CartItem.cartId r) ->
  (∀ r, CartItem.cartId r ≠ k -> g r = r) ->
  Prisma.itemsOf c' (map g rows) = Prisma.itemsOf c' rows.
Proof.
  intros Hne Hcart Hother. unfold Prisma.itemsOf.
  induction rows as [|r rows IH]; [reflexivity|]. cbn [map].
  rewrite !filter_cons, IH.
  destruct (decide (CartItem.cartId r = c')) as [Hr|Hr].
  - rewrite Hother by congruence. rewrite decide_True by exact Hr. reflexivity.
  - rewrite decide_False by (rewrite Hcart; exact Hr). reflexivity.
Qed.

Lemma itemsOf_filter_other (k c' : string) (p : CartItem.t -> bool)
    (rows : list CartItem.t) :
  (∀ r, CartItem.cartId r = c' -> p r = true) ->
  Prisma.itemsOf c' (List.filter p rows) = Prisma.itemsOf c' rows.
Proof.
  intros Hkeep. unfold Prisma.itemsOf.
  induction rows as [|r rows IH]; [reflexivity|]. simpl.
  destruct (p r) eqn:Hp.
  - rewrite !filter_cons, IH. reflexivity.
  - rewrite filter_cons, IH. rewrite decide_False; [reflexivity|].
    intros Hr. rewrite (Hkeep r Hr) in Hp. discriminate.
Qed.

Lemma increased_cartId (k : string) (r : CartItem.t) :
  CartItem.cartId (increased k r) = CartItem.cartId r
  ∧ CartItem.id (increased k r) = CartItem.id r.
Proof. unfold increased. destruct (_ && _); split; reflexivity. Qed.

Lemma decreased_cartId (k : string) (r : CartItem.t) :
  CartItem.cartId (decreased k r) = CartItem.cartId r
  ∧ CartItem.id (decreased k r) = CartItem.id r.
Proof. unfold decreased. destruct (_ && _); split; reflexivity. Qed.

Lemma increased_other (k : string) (r : CartItem.t) :
  CartItem.cartId r ≠ k -> increased k r = r.
Proof. intros H. unfold increased. rewrite bool_decide_false by exact H. reflexivity. Qed.

Lemma decreased_other (k : string) (r : CartItem.t) :
  CartItem.cartId r ≠ k -> decreased k r = r.
Proof. intros H. unfold decreased. rewrite bool_decide_false by exact H. reflexivity. Qed.

Lemma cart_findUnique_same_items (c : string) (s s' : Store) :
  cartTable s' = cartTable s ->
  Prisma.itemsOf c (cartItemTable s') = Prisma.itemsOf c (cartItemTable s) ->
  Prisma.cart_findUnique c s' = Prisma.cart_findUnique c s.
Proof.
  intros Hcarts Hitems. unfold Prisma.cart_findUnique, Prisma.loadCart.
  rewrite Hcarts, Hitems. reflexivity.
Qed.

(** X7. [removeItem], [increaseCartItem] and [decreaseCartItem] never add or
    delete a cart, and whether they succeed or are rejected they leave
    every cart whose id differs from [input.id] reading back exactly as
    before. *)
Theorem update_mutations_other_carts (c' : string) (s : Store)
    (rm : RemoveFromCartInput.t) (inc : IncreaseCartItemInput.t)
    (dec : DecreaseCartItemInput.t) :
  cartTable (after_removeItem rm s) = cartTable s
  ∧ cartTable (after_increaseCartItem inc s) = cartTable s
  ∧ cartTable (after_decreaseCartItem dec s) = cartTable s
  ∧ (c' ≠ RemoveFromCartInput.id rm ->
     Prisma.cart_findUnique c' (after_removeItem rm s) = Prisma.cart_findUnique c' s)
  ∧ (c' ≠ IncreaseCartItemInput.id inc ->
     Prisma.cart_findUnique c' (after_increaseCartItem inc s) = Prisma.cart_findUnique c' s)
  ∧ (c' ≠ DecreaseCartItemInput.id dec ->
     Prisma.cart_findUnique c' (after_decreaseCartItem dec s) = Prisma.cart_findUnique c' s).
Proof.
  rewrite after_removeItem_eq, after_increaseCartItem_eq, after_decreaseCartItem_eq.
  simpl. split; [reflexivity|]. split; [reflexivity|]. split; [reflexivity|].
  split; [|split]; intros Hne; apply cart_findUnique_same_items; try reflexivity; simpl;
    case_decide; try reflexivity.
  - apply (itemsOf_filter_other (RemoveFromCartInput.id rm)). intros r Hr.
    rewrite bool_decide_false by congruence. reflexivity.
  - apply (itemsOf_map_other (IncreaseCartItemInput.id inc)); [exact Hne| |].
    + intros r. apply increased_cartId.
    + intros r. apply increased_other.
  - apply (itemsOf_map_other (DecreaseCartItemInput.id dec)); [exact Hne| |].
    + intros r. apply decreased_cartId.
    + intros r. apply decreased_other.
Qed.

Lemma update_mutations_other_carts_witness :
  Prisma.cart_findUnique "c1" (after_removeItem remove_mug store_c1_i1)
  = Prisma.cart_findUnique "c1" store_c1_i1
  ∧ Prisma.cart_findUnique "c1" (after_increaseCartItem increase_mug store_c1_i1)
    = Prisma.cart_findUnique "c1" store_c1_i1
  ∧ Prisma.cart_findUnique "c1" (after_decreaseCartItem decrease_mug store_c1_i1)
    = Prisma.cart_findUnique "c1" store_c1_i1.
Proof.
  destruct (update_mutations_other_carts "c1" store_c1_i1 remove_mug increase_mug decrease_mug)
    as (_ & _ & _ & Hrm & Hinc & Hdec).
  split; [|split].
  - apply Hrm. simpl. discriminate.
  - apply Hinc. simpl. discriminate.
  - apply Hdec. simpl. discriminate.
Defined.

(** X8. [removeItem] is idempotent: after a successful call, the same call
    succeeds again, returning the same cart and leaving the store as the
    first call left it; and no call ever adds a row. *)
Theorem removeItem_idempotent (input : RemoveFromCartInput.t) (s s' : Store)
    (cart : Cart.t) :
  Builder.removeItem input s = Ok (cart, s') ->
  Builder.removeItem input s' = Ok (cart, s')
  ∧ Cart.id cart = RemoveFromCartInput.id input
  ∧ (∀ r, r ∈ cartItemTable s' -> r ∈ cartItemTable s).
Proof.
  intros Hrun. destruct (removeItem_runs input s) as [Habsent Hpresent].
  destruct (decide (RemoveFromCartInput.id input ∈ cartTable s)) as [Hin|Hout];
    [|rewrite (Habsent Hout) in Hrun; discriminate].
  rewrite (Hpresent Hin) in Hrun. injection Hrun as <- <-.
  split; [|split].
  - destruct (removeItem_runs input
                {| cartTable := cartTable s;
                   cartItemTable :=
                     List.filter
                       (fun r => negb (bool_decide (CartItem.cartId r = RemoveFromCartInput.id input)
                                       && bool_decide (CartItem.id r = RemoveFromCartInput.id input)))
                       (cartItemTable s) |}) as [_ Hagain].
    rewrite (Hagain Hin). simpl. rewrite filter_twice. reflexivity.
  - reflexivity.
  - intros r Hr. simpl in Hr. apply list_elem_of_In. apply list_elem_of_In, filter_In in Hr.
    tauto.
Qed.

Lemma removeItem_idempotent_witness :
  ∃ cart s',
    Builder.removeItem remove_box store_box = Ok (cart, s')
    ∧ Builder.removeItem remove_box s' = Ok (cart, s')
    ∧ cartItemTable s' = [mug 2].
Proof.
  exists {| Cart.id := "c1"; Cart.items := [mug 2] |},
         {| cartTable := {[ "c1"%string ]}; cartItemTable := [mug 2] |}.
  split; [reflexivity|]. split; [|reflexivity].
  apply (removeItem_idempotent remove_box store_box). reflexivity.
Defined.

Lemma decreased_increased (k : string) (r : CartItem.t) :
  0 ≤ CartItem.quantity r -> decreased k (increased k r) = r.
Proof.
  destruct r as [i c nm d im p q]. simpl. intros Hq.
  unfold increased, decreased, Prisma.increment, Prisma.decrement, CartItem.with_quantity.
  simpl.
  destruct (bool_decide (c = k)) eqn:Hc; destruct (bool_decide (i = k)) eqn:Hi;
    simpl; rewrite ?Hc, ?Hi; simpl; try reflexivity.
  rewrite bool_decide_true by lia. f_equal. lia.
Qed.

Lemma increased_decreased (k : string) (r : CartItem.t) :
  1 ≤ CartItem.quantity r -> increased k (decreased k r) = r.
Proof.
  destruct r as [i c nm d im p q]. simpl. intros Hq.
  unfold increased, decreased, Prisma.increment, Prisma.decrement, CartItem.with_quantity.
  simpl. rewrite (bool_decide_true (1 ≤ q)) by exact Hq.
  destruct (bool_decide (c = k)) eqn:Hc; destruct (bool_decide (i = k)) eqn:Hi;
    simpl; rewrite ?Hc, ?Hi; simpl; try reflexivity.
  f_equal. lia.
Qed.

(** X9. [decreaseCartItem] undoes [increaseCartItem] called with the same
    [id]: when no stored quantity is negative, the two calls in that order
    leave the store exactly as it was.  In the other order they do so when
    every stored quantity is at least 1. *)
Theorem decrease_undoes_increase (inc : IncreaseCartItemInput.t)
    (dec : DecreaseCartItemInput.t) (s : Store) :
  DecreaseCartItemInput.id dec = IncreaseCartItemInput.id inc ->
  (quantities_nonnegative s ->
   after_decreaseCartItem dec (after_increaseCartItem inc s) = s)
  ∧ (Forall (fun r => 1 ≤ CartItem.quantity r) (cartItemTable s) ->
     after_increaseCartItem inc (after_decreaseCartItem dec s) = s).
Proof.
  intros Hid. split; intros Hq.
  - rewrite after_decreaseCartItem_eq, after_increaseCartItem_eq. simpl. rewrite Hid.
    apply store_eta. case_decide; [|reflexivity].
    rewrite map_map. eapply map_fixed; [|exact Hq].
    intros r Hr. apply decreased_increased, Hr.
  - rewrite after_increaseCartItem_eq, after_decreaseCartItem_eq. simpl. rewrite Hid.
    apply store_eta. case_decide; [|reflexivity].
    rewrite map_map. eapply map_fixed; [|exact Hq].
    intros r Hr. apply increased_decreased, Hr.
Qed.

Lemma decrease_undoes_increase_witness :
  after_decreaseCartItem decrease_box (after_increaseCartItem
    {| IncreaseCartItemInput.cartId := "c1"; IncreaseCartItemInput.id := "c1" |}
    {| cartTable := {[ "c1"%string ]}; cartItemTable := [box 0; mug 2] |})
  = {| cartTable := {[ "c1"%string ]}; cartItemTable := [box 0; mug 2] |}
  ∧ after_increaseCartItem
      {| IncreaseCartItemInput.cartId := "c1"; IncreaseCartItemInput.id := "c1" |}
      (after_decreaseCartItem decrease_box store_box)
    = store_box.
Proof.
  split.
  - apply (decrease_undoes_increase
             {| IncreaseCartItemInput.cartId := "c1"; IncreaseCartItemInput.id := "c1" |}
             decrease_box
             {| cartTable := {[ "c1"%string ]}; cartItemTable := [box 0; mug 2] |});
      [reflexivity|].
    unfold quantities_nonnegative. simpl. repeat (constructor; [simpl; lia|]). constructor.
  - apply (decrease_undoes_increase
             {| IncreaseCartItemInput.cartId := "c1"; IncreaseCartItemInput.id := "c1" |}
             decrease_box store_box); [reflexivity|].
    simpl. repeat (constructor; [simpl; lia|]). constructor.
Defined.

Lemma iter_map_rows (f : Store -> Store) (g : CartItem.t -> CartItem.t) (s : Store) (m : nat) :
  (∀ st, cartTable st = cartTable s ->
         f st = {| cartTable := cartTable st; cartItemTable := map g (cartItemTable st) |}) ->
  Nat.iter m f s
  = {| cartTable := cartTable s; cartItemTable := map (Nat.iter m g) (cartItemTable s) |}.
Proof.
  intros Hf. induction m as [|m IH]; simpl.
  - rewrite map_id. symmetry. apply store_eta. reflexivity.
  - rewrite IH, Hf by reflexivity. simpl. rewrite map_map. reflexivity.
Qed.

Lemma iter_decreased (k : string) (r : CartItem.t) (m : nat) :
  CartItem.id r = k -> CartItem.cartId r = k -> 0 ≤ CartItem.quantity r ->
  Nat.iter m (decreased k) r
  = CartItem.with_quantity (Z.max 0 (CartItem.quantity r - Z.of_nat m)) r.
Proof.
  intros Hi Hc Hq. induction m as [|m IH].
  - simpl. rewrite Z.sub_0_r, Z.max_r by exact Hq. symmetry. apply with_quantity_same.
  - rewrite Nat.iter_succ, IH. unfold decreased. simpl.
    rewrite (bool_decide_true _ Hc), (bool_decide_true _ Hi). simpl.
    destruct (bool_decide (1 ≤ Z.max 0 (CartItem.quantity r - Z.of_nat m))) eqn:Hpos.
    + apply bool_decide_eq_true in Hpos. unfold Prisma.decrement. simpl.
      rewrite with_quantity_twice. f_equal. lia.
    + apply bool_decide_eq_false in Hpos. f_equal. lia.
Qed.

Lemma iter_increased (k : string) (r : CartItem.t) (m : nat) :
  CartItem.id r = k -> CartItem.cartId r = k ->
  Nat.iter m (increased k) r
  = CartItem.with_quantity (CartItem.quantity r + Z.of_nat m) r.
Proof.
  intros Hi Hc. induction m as [|m IH].
  - simpl. rewrite Z.add_0_r. symmetry. apply with_quantity_same.
  - rewrite Nat.iter_succ, IH. unfold increased. simpl.
    rewrite (bool_decide_true _ Hc), (bool_decide_true _ Hi). simpl.
    unfold Prisma.increment. simpl. rewrite with_quantity_twice. f_equal. lia.
Qed.

(** X10. On a row whose id and cart id both equal [input.id], the cart with
    that id being in the store, [m] calls of [increaseCartItem] add exactly
    [m] to the quantity, and [m] calls of [decreaseCartItem] on a quantity
    [q >= 0] leave [max 0 (q - m)]: one less per call until 0, then 0. *)
Theorem repeated_calls_on_matched_row (inc : IncreaseCartItemInput.t)
    (dec : DecreaseCartItemInput.t) (s : Store) (n : nat) (r : CartItem.t) (m : nat) :
  let k := CartItem.id r in
  cartItemTable s !! n = Some r ->
  CartItem.cartId r = k ->
  k ∈ cartTable s ->
  (IncreaseCartItemInput.id inc = k ->
   cartItemTable (Nat.iter m (after_increaseCartItem inc) s) !! n
   = Some (CartItem.with_quantity (CartItem.quantity r + Z.of_nat m) r))
  ∧ (DecreaseCartItemInput.id dec = k -> 0 ≤ CartItem.quantity r ->
     cartItemTable (Nat.iter m (after_decreaseCartItem dec) s) !! n
     = Some (CartItem.with_quantity (Z.max 0 (CartItem.quantity r - Z.of_nat m)) r)).
Proof.
  intros k Hr Hc Hin. split.
  - intros Hid.
    rewrite (iter_map_rows _ (increased k) s m).
    + simpl. rewrite lookup_map, Hr. simpl. rewrite iter_increased by auto. reflexivity.
    + intros st Hst. rewrite after_increaseCartItem_eq. simpl. rewrite Hid.
      rewrite decide_True by (rewrite Hst; exact Hin). reflexivity.
  - intros Hid Hq.
    rewrite (iter_map_rows _ (decreased k) s m).
    + simpl. rewrite lookup_map, Hr. simpl. rewrite iter_decreased by auto. reflexivity.
    + intros st Hst. rewrite after_decreaseCartItem_eq. simpl. rewrite Hid.
      rewrite decide_True by (rewrite Hst; exact Hin). reflexivity.
Qed.

Lemma repeated_calls_on_matched_row_witness :
  cartItemTable
    (Nat.iter 3 (after_increaseCartItem
                   {| IncreaseCartItemInput.cartId := "c1"; IncreaseCartItemInput.id := "c1" |})
       store_box) !! 0%nat
  = Some (box 4)
  ∧ cartItemTable (Nat.iter 3 (after_decreaseCartItem decrease_box) store_box) !! 0%nat
    = Some (box 0).
Proof.
  destruct (repeated_calls_on_matched_row
              {| IncreaseCartItemInput.cartId := "c1"; IncreaseCartItemInput.id := "c1" |}
              decrease_box store_box 0 (box 1) 3) as [Hinc Hdec];
    [reflexivity | reflexivity | vm_compute; reflexivity |].
  split.
  - apply Hinc. reflexivity.
  - apply Hdec; [reflexivity | simpl; lia].
Defined.

(** ** Invariants of the reachable stores *)

Lemma findItem_None_key (i c : string) (rows : list CartItem.t) :
  Prisma.findItem i c rows = None <-> (i, c) ∉ map item_key rows.
Proof.
  rewrite findItem_None_all. induction rows as [|r rows IH]; simpl.
  - split; [intros _ H; inversion H | constructor].
  - rewrite Forall_cons, not_elem_of_cons, IH.
    assert (Hkey : Prisma.hasKey i c r = false <-> (i, c) ≠ item_key r).
    { rewrite <- not_true_iff_false, hasKey_true. unfold item_key. split.
      - intros H Heq. injection Heq as Hi Hc. apply H. split; congruence.
      - intros H [Hi Hc]. apply H. congruence. }
    rewrite Hkey. reflexivity.
Qed.

Lemma keys_map_same (g : CartItem.t -> CartItem.t) (rows : list CartItem.t) :
  (∀ r, item_key (g r) = item_key r) ->
  map item_key (map g rows) = map item_key rows.
Proof. intros Hg. rewrite map_map. apply map_ext, Hg. Qed.

Lemma NoDup_keys_filter (p : CartItem.t -> bool) (rows : list CartItem.t) :
  NoDup (map item_key rows) -> NoDup (map item_key (List.filter p rows)).
Proof.
  induction rows as [|r rows IH]; simpl; [auto|].
  rewrite NoDup_cons. intros [Hr Hrows]. destruct (p r); simpl; [|auto].
  apply NoDup_cons. split; [|auto]. intros Hin. apply Hr.
  apply list_elem_of_In, in_map_iff in Hin as (x & Hx & Hin).
  apply filter_In in Hin as [Hin _].
  apply list_elem_of_In, in_map_iff. exists x. split; assumption.
Qed.

Section UniqueKeys.
Lemma unique_noItems : keeps_unique Prisma.noItems.
Proof. intros parent rows rows' H [= <-]. exact H. Qed.

Lemma unique_create (d : Prisma.ItemCreate) : keeps_unique (Prisma.items_create d).
Proof.
  intros parent rows rows' H. unfold Prisma.items_create.
  destruct (Prisma.findItem _ _ _) eqn:Hfind; [discriminate|]. intros [= <-].
  rewrite map_app. apply NoDup_app. split; [exact H|]. split.
  - intros key Hkey Hnew. apply list_elem_of_singleton in Hnew. subst key.
    apply findItem_None_key in Hfind. apply Hfind. exact Hkey.
  - apply NoDup_singleton.
Qed.

Lemma unique_upsert (i c : string) (d : Prisma.ItemCreate) (n : Z) :
  keeps_unique (Prisma.items_upsert i c d (Prisma.increment n)).
Proof.
  intros parent rows rows' H. unfold Prisma.items_upsert.
  destruct (Prisma.findItem i c rows).
  - intros [= <-]. unfold Prisma.updateUnique. rewrite keys_map_same; [exact H|].
    intros r. destruct (Prisma.hasKey i c r); reflexivity.
  - apply unique_create. exact H.
Qed.

Lemma unique_updateMany (where_ : CartItem.t -> bool) (upd : CartItem.t -> CartItem.t) :
  (∀ r, item_key (upd r) = item_key r) ->
  keeps_unique (Prisma.items_updateMany where_ upd).
Proof.
  intros Hupd parent rows rows' H [= <-]. rewrite keys_map_same; [exact H|].
  intros r. destruct (_ && _); [apply Hupd | reflexivity].
Qed.

Lemma unique_deleteMany (where_ : CartItem.t -> bool) :
  keeps_unique (Prisma.items_deleteMany where_).
Proof. intros parent rows rows' H [= <-]. apply NoDup_keys_filter, H. Qed.

Lemma unique_cart_upsert (c : string) (onCreate onUpdate : Prisma.Nested)
    (s s' : Store) (cart : Cart.t) :
  keeps_unique onCreate -> keeps_unique onUpdate ->
  unique_keys s ->
  Prisma.cart_upsert c onCreate onUpdate s = Ok (cart, s') ->
  unique_keys s'.
Proof.
  intros Hcreate Hupdate Hs. unfold Prisma.cart_upsert, unique_keys in *.
  destruct (decide (c ∈ cartTable s)) as [Hin|Hout].
  - destruct (onUpdate c (cartItemTable s)) as [rows|e] eqn:Hop; [|discriminate].
    intros [= _ <-]. simpl. eapply Hupdate; eassumption.
  - destruct (onCreate c (cartItemTable s)) as [rows|e] eqn:Hop; [|discriminate].
    intros [= _ <-]. simpl. eapply Hcreate; eassumption.
Qed.

Lemma unique_cart_update (k : string) (data : Prisma.Nested)
    (s s' : Store) (cart : Cart.t) :
  keeps_unique data ->
  unique_keys s ->
  Prisma.cart_update k data s = Ok (cart, s') ->
  unique_keys s'.
Proof.
  intros Hdata Hs. unfold Prisma.cart_update, unique_keys in *.
  destruct (decide (k ∈ cartTable s)) as [Hin|Hout]; [|discriminate].
  destruct (data k (cartItemTable s)) as [rows|e] eqn:Hop; [|discriminate].
  intros [= _ <-]. simpl. eapply Hdata; eassumption.
Qed.

Lemma reachable_unique_keys (s : Store) : reachable s -> unique_keys s.
Proof.
  induction 1 as [|id s c s' _ IH Hrun|input s c s' _ IH Hrun|input s c s' _ IH Hrun
                  |input s c s' _ IH Hrun|input s c s' _ IH Hrun].
  - constructor.
  - eapply unique_cart_upsert; [| |exact IH|exact Hrun]; apply unique_noItems.
  - eapply unique_cart_upsert; [| |exact IH|exact Hrun].
    + apply unique_create.
    + apply unique_upsert.
  - eapply unique_cart_update; [|exact IH|exact Hrun]. apply unique_deleteMany.
  - eapply unique_cart_update; [|exact IH|exact Hrun].
    apply unique_updateMany. reflexivity.
  - eapply unique_cart_update; [|exact IH|exact Hrun].
    apply unique_updateMany. reflexivity.
Qed.
End UniqueKeys.

(** X11. Every store the schema-builder server reaches from the empty one,
    by any sequence of successful queries and mutations, has referential
    integrity (each item row belongs to an existing cart) and no two rows
    with the same compound key [(id, cartId)]. *)
Theorem reachable_wellformed (s : Store) :
  reachable s -> foreign_keys s ∧ unique_keys s.
Proof.
  intros Hs. split; [apply reachable_foreign_keys | apply reachable_unique_keys]; exact Hs.
Qed.

Lemma reachable_wellformed_witness :
  foreign_keys store_c1 ∧ unique_keys store_c1.
Proof.
  apply reachable_wellformed.
  apply (reach_addItem (add_mug (Given 2)) empty_store
           {| Cart.id := "c1"; Cart.items := [mug 2] |} store_c1).
  - apply reach_empty.
  - reflexivity.
Defined.

Lemma Forall_map_quantity (g : CartItem.t -> CartItem.t) (rows : list CartItem.t) :
  (∀ r, 0 ≤ CartItem.quantity r -> 0 ≤ CartItem.quantity (g r)) ->
  Forall (fun r => 0 ≤ CartItem.quantity r) rows ->
  Forall (fun r => 0 ≤ CartItem.quantity r) (map g rows).
Proof.
  intros Hg. induction 1 as [|r rows Hr _ IH]; simpl; constructor; auto.
Qed.

(** X12. No mutation makes a quantity negative as long as [addItem] is not
    given a negative quantity: if no stored quantity is negative before a
    call of [cart], [removeItem], [increaseCartItem], [decreaseCartItem] or
    of [addItem] with a supplied quantity of at least 0, none is
    afterwards. *)
Theorem quantities_stay_nonnegative (s : Store) :
  quantities_nonnegative s ->
  (∀ id, quantities_nonnegative (store_after (Builder.cart id s) s))
  ∧ (∀ input, 0 ≤ supplied_quantity (AddToCartInput.quantity input) ->
              quantities_nonnegative (store_after (Builder.addItem input s) s))
  ∧ (∀ input, quantities_nonnegative (after_removeItem input s))
  ∧ (∀ input, quantities_nonnegative (after_increaseCartItem input s))
  ∧ (∀ input, quantities_nonnegative (after_decreaseCartItem input s)).
Proof.
  unfold quantities_nonnegative. intros Hs. split; [|split; [|split; [|split]]].
  - intros id. unfold Builder.cart. rewrite cart_upsert_noItems. exact Hs.
  - intros input Hq. pose proof (addItem_cases input s) as Hcases.
    destruct (Builder.addItem input s) as [[cart s']|e]; [|exact Hs].
    simpl in *. destruct Hcases as (_ & _ & ->).
    rewrite addItem_quantity_supplied.
    destruct (Prisma.findItem _ _ _).
    + apply Forall_map_quantity; [|exact Hs]. intros r Hr.
      destruct (Prisma.hasKey _ _ r); simpl; lia.
    + apply Forall_app. split; [exact Hs|]. constructor; [|constructor].
      simpl. rewrite addItem_quantity_supplied. exact Hq.
  - intros input. rewrite after_removeItem_eq. simpl. case_decide; [|exact Hs].
    rewrite Forall_forall in *. intros r Hr. apply Hs.
    apply list_elem_of_In. apply list_elem_of_In, filter_In in Hr. tauto.
  - intros input. rewrite after_increaseCartItem_eq. simpl. case_decide; [|exact Hs].
    apply Forall_map_quantity; [|exact Hs]. intros r Hr.
    unfold increased. destruct (_ && _); simpl; lia.
  - intros input. rewrite after_decreaseCartItem_eq. simpl. case_decide; [|exact Hs].
    apply Forall_map_quantity; [|exact Hs]. intros r Hr. unfold decreased.
    destruct (bool_decide (1 ≤ CartItem.quantity r)) eqn:Hpos.
    + apply bool_decide_eq_true in Hpos. destruct (_ && _); simpl; lia.
    + rewrite !andb_false_r. exact Hr.
Qed.

Lemma quantities_stay_nonnegative_witness :
  quantities_nonnegative (store_after (Builder.addItem (add_mug (Given 0)) store_box) store_box)
  ∧ quantities_nonnegative (after_decreaseCartItem decrease_box store_box).
Proof.
  destruct (quantities_stay_nonnegative store_box) as (_ & Hadd & _ & _ & Hdec).
  - unfold quantities_nonnegative. simpl. repeat (constructor; [simpl; lia|]). constructor.
  - split; [apply Hadd; simpl; lia | apply Hdec].
Defined.

(** ** Checkout and the rest of the cart *)

Lemma charged_line_items (p : SessionCreateParams) (items : list CartItem.t) :
  line_items p = map Builder.line_item items ->
  charged p = subTotal_spec items.
Proof.
  unfold charged, subTotal_spec. intros ->.
  induction items as [|item items IH]; simpl; [reflexivity|].
  rewrite IH. lia.
Qed.

(** X13. Whenever [createCheckoutSession] reaches the gateway for a cart
    whose line amounts stay where doubles are exact, the amount of the
    request (the sum of quantity times unit amount over its lines) is the
    sub-total of the cart, and the request's metadata names the cart. *)
Theorem checkout_charges_subTotal
    (origin : string) (gateway : SessionCreateParams -> Result Session)
    (input : CreateCheckoutSessionInput.t) (s : Store)
    (calls : list SessionCreateParams) (cart : Cart.t) :
  Prisma.cart_findUnique (CreateCheckoutSessionInput.cartId input) s = Some cart ->
  Cart.items cart ≠ [] ->
  exact_amounts (Cart.items cart) ->
  ∃ params,
    (Builder.createCheckoutSession origin gateway input s calls).2 = calls ++ [params]
    ∧ charged params = Builder.subTotal cart
    ∧ metadata_cartId params = CreateCheckoutSessionInput.cartId input.
Proof.
  intros Hcart Hne Hexact.
  destruct (checkout_calls_gateway origin gateway input s calls cart Hcart Hne)
    as (params & Hlog & Hlines & Hmeta).
  exists params. split; [exact Hlog|]. split; [|exact Hmeta].
  rewrite (charged_line_items params _ Hlines).
  destruct cart as [c items]. simpl in *.
  destruct (subTotal_exact c items Hexact) as [-> _]. reflexivity.
Qed.

Lemma checkout_charges_subTotal_witness :
  ∃ params,
    (Builder.createCheckoutSession "https://shop.example" accepting_gateway
       {| CreateCheckoutSessionInput.cartId := "c1" |} store_box []).2 = [] ++ [params]
    ∧ charged params = Builder.subTotal {| Cart.id := "c1"; Cart.items := [box 1; mug 2] |}.
Proof.
  destruct (checkout_charges_subTotal "https://shop.example" accepting_gateway
              {| CreateCheckoutSessionInput.cartId := "c1" |} store_box []
              {| Cart.id := "c1"; Cart.items := [box 1; mug 2] |})
    as (params & Hlog & Hcharged & _);
    [vm_compute; reflexivity | simpl; discriminate | vm_compute; reflexivity |].
  exists params. split; [exact Hlog | exact Hcharged].
Defined.

Lemma addItem_cart_nonempty (input : AddToCartInput.t) (s s' : Store) (cart : Cart.t) :
  Builder.addItem input s = Ok (cart, s') ->
  Prisma.cart_findUnique (AddToCartInput.cartId input) s' = Some cart
  ∧ Cart.items cart ≠ [].
Proof.
  intros Hrun. pose proof (addItem_cases input s) as Hcases.
  rewrite Hrun in Hcases. simpl in Hcases. destruct Hcases as (-> & Hcarts & Hrows).
  split.
  - unfold Prisma.cart_findUnique. rewrite decide_True; [reflexivity|].
    rewrite Hcarts. apply elem_of_union_l, elem_of_singleton. reflexivity.
  - simpl. rewrite Hrows.
    destruct (Prisma.findItem _ _ (cartItemTable s)) as [old|] eqn:Hfind.
    + pose proof (findItem_updateUnique (AddToCartInput.id input) (AddToCartInput.cartId input)
                    (Builder.addItem_quantity input) (cartItemTable s)) as Hnew.
      rewrite Hfind in Hnew. simpl in Hnew.
      apply findItem_Some_key in Hnew as (_ & Hc & Hin).
      intros Hnil.
      assert (Hmem : Prisma.increment (Builder.addItem_quantity input) old
                     ∈ Prisma.itemsOf (AddToCartInput.cartId input)
                         (Prisma.updateUnique (AddToCartInput.id input)
                            (AddToCartInput.cartId input)
                            (Prisma.increment (Builder.addItem_quantity input))
                            (cartItemTable s)))
        by (apply elem_of_itemsOf; split; assumption).
      rewrite Hnil in Hmem. inversion Hmem.
    + rewrite itemsOf_app. unfold Prisma.itemsOf at 2.
      rewrite filter_cons, decide_True by reflexivity.
      intros Hnil. apply app_eq_nil in Hnil as [_ Hnil]. discriminate.
Qed.

(** X14. After a successful [addItem], [createCheckoutSession] on the
    input's cart passes both validations and reaches the gateway, with one
    line per item of the returned cart; this holds even when the only item
    has quantity 0, because the emptiness test counts rows. *)
Theorem checkout_after_addItem
    (origin : string) (gateway : SessionCreateParams -> Result Session)
    (input : AddToCartInput.t) (s s' : Store) (cart : Cart.t)
    (calls : list SessionCreateParams) :
  Builder.addItem input s = Ok (cart, s') ->
  ∃ params,
    (Builder.createCheckoutSession origin gateway
       {| CreateCheckoutSessionInput.cartId := AddToCartInput.cartId input |} s' calls).2
    = calls ++ [params]
    ∧ line_items params = map Builder.line_item (Cart.items cart)
    ∧ length (line_items params) = length (Cart.items cart).
Proof.
  intros Hrun. destruct (addItem_cart_nonempty input s s' cart Hrun) as [Hcart Hne].
  destruct (checkout_calls_gateway origin gateway
              {| CreateCheckoutSessionInput.cartId := AddToCartInput.cartId input |}
              s' calls cart Hcart Hne) as (params & Hlog & Hlines & _).
  exists params. split; [exact Hlog|]. split; [exact Hlines|].
  rewrite Hlines. apply length_map.
Qed.

Lemma checkout_after_addItem_witness :
  ∃ params,
    (Builder.createCheckoutSession "https://shop.example" accepting_gateway
       {| CreateCheckoutSessionInput.cartId := "c1" |}
       {| cartTable := {[ "c1"%string ]}; cartItemTable := [mug 0] |} []).2
    = [] ++ [params]
    ∧ line_items params = map Builder.line_item [mug 0]
    ∧ length (line_items params) = 1%nat.
Proof.
  apply (checkout_after_addItem "https://shop.example" accepting_gateway
           (add_mug (Given 0)) empty_store
           {| cartTable := {[ "c1"%string ]}; cartItemTable := [mug 0] |}
           {| Cart.id := "c1"; Cart.items := [mug 0] |} []).
  reflexivity.
Defined.

(** X15. A cart that was just created by reading it cannot be checked out:
    on a store with referential integrity and without a cart of that id,
    [cart id] followed by [createCheckoutSession] for the same id fails
    with "Cart is empty" (not "Invalid cart") and makes no gateway call. *)
Theorem checkout_after_cart
    (origin : string) (gateway : SessionCreateParams -> Result Session)
    (id : string) (s : Store) (calls : list SessionCreateParams) :
  foreign_keys s ->
  id ∉ cartTable s ->
  Builder.createCheckoutSession origin gateway
    {| CreateCheckoutSessionInput.cartId := id |} s calls
  = (Err InvalidCart, calls)
  ∧ Builder.createCheckoutSession origin gateway
      {| CreateCheckoutSessionInput.cartId := id |}
      (store_after (Builder.cart id s) s) calls
    = (Err EmptyCart, calls).
Proof.
  intros Hfk Hout. split.
  - apply checkout_no_cart. apply cart_findUnique_spec, Hout.
  - unfold Builder.cart. rewrite cart_upsert_noItems. simpl.
    rewrite decide_False by exact Hout.
    eapply checkout_no_items.
    + unfold Prisma.cart_findUnique. simpl.
      rewrite decide_True by (apply elem_of_union_l, elem_of_singleton; reflexivity).
      reflexivity.
    + simpl. apply itemsOf_no_cart; assumption.
Qed.

Lemma checkout_after_cart_witness :
  Builder.createCheckoutSession "https://shop.example" accepting_gateway
    {| CreateCheckoutSessionInput.cartId := "c2" |}
    (store_after (Builder.cart "c2" store_c1) store_c1) []
  = (Err EmptyCart, []).
Proof.
  apply (checkout_after_cart "https://shop.example" accepting_gateway "c2" store_c1 []).
  - unfold foreign_keys. simpl. constructor; [vm_compute; reflexivity | constructor].
  - vm_compute. discriminate.
Defined.
